(** * Bulk discount pipeline of app/routes/app.bulk-discount.jsx

    A shallow embedding of the [action] handler of the bulk discount route:
    the three actions [create_discounts], [process_pending] and
    [retry_failed], over an explicit model of the two Prisma tables
    [DiscountSet] and [Discount] (schema: the migration in
    src/unnamed/part_000) and of the Shopify Admin GraphQL gateway.

    Modelling choices:
    - the database is a record of two lists of rows in insertion order;
      [findMany] without [orderBy] returns rows in that order;
    - row ids are natural numbers drawn from a counter (the source uses
      generated cuid strings); timestamps are not modelled;
    - a GraphQL response is modelled at the types of the query that asks
      for it (nullable fields are [option]); the request object
      [discountInput] built by the route is a JSON value, since its exact
      shape is what the claims are about;
    - a thrown JavaScript exception is an [Err] carrying its message; the
      outer [try/catch] of [action] turns it into [{ error: ... }];
    - the gateway is an oracle: one record of functions per action call. *)

From Stdlib Require Import Ascii String List Bool Arith Lia QArith.
Import ListNotations.
Open Scope nat_scope.
Open Scope string_scope.
Local Set Warnings "-register-all".

(** ** JSON values (the objects the route builds and sends) *)

Inductive json : Type :=
| JNull
| JBool (b : bool)
| JNum (q : Q)
| JStr (s : string)
| JArr (l : list json)
| JObj (fields : list (string * json)).

(** Property access [o[k]] on an object literal (first matching key). *)
Definition jget (k : string) (j : json) : option json :=
  match j with
  | JObj fs =>
      match find (fun p => String.eqb (fst p) k) fs with
      | Some (_, v) => Some v
      | None => None
      end
  | _ => None
  end.

(** [a || b] on strings: the empty string is falsy. *)
Definition msg_or (m dflt : string) : string :=
  if String.eqb m "" then dflt else m.

(** ** Errors: thrown exceptions as [Err message] *)

Inductive res (A : Type) : Type :=
| Ok (a : A)
| Err (msg : string).
Arguments Ok {A} a.
Arguments Err {A} msg.

(** ** The master discount, as returned by the [getDiscount] query of
    [process_pending] (fragment [... on DiscountCodeBasic]) *)

Record MoneyV2 := mkMoneyV2 {
  amount : string;            (* Decimal scalar, serialised as a string *)
  currencyCode : string
}.

(** [customerGets.value]: a union; the fragments yield [percentage] for a
    [DiscountPercentage] and [amount] for a [DiscountAmount]. *)
Record DiscountValue := mkDiscountValue {
  percentage : option Q;
  value_amount : option MoneyV2
}.

(** [customerGets.items]: [allItems], or the product / collection ids
    ([edges.map(edge => edge.node.id)]). *)
Record DiscountItems := mkDiscountItems {
  allItems : option bool;
  products : option (list string);
  collections : option (list string)
}.

(** [context]: [all] (enum [DiscountBuyerSelection], value ["ALL"]) or the
    customer ids. *)
Record DiscountContext := mkDiscountContext {
  all : option string;
  customers : option (list string)
}.

Record CustomerGets := mkCustomerGets {
  value : DiscountValue;
  items : DiscountItems
}.

Record MasterDiscount := mkMasterDiscount {
  title : string;
  minimumRequirement : json;  (* copied verbatim into the request *)
  customerGets : CustomerGets;
  context : DiscountContext;
  usageLimit : option Z;
  appliesOncePerCustomer : bool;
  startsAt : string;
  endsAt : option string
}.

(** Truthiness of the fields the helpers test. *)
Definition truthy_bool (b : option bool) : bool :=
  match b with Some true => true | _ => false end.

Definition truthy_str (s : option string) : bool :=
  match s with Some v => negb (String.eqb v "") | None => false end.

Definition truthy_num (q : option Q) : bool :=
  match q with Some v => negb (Qeq_bool v 0) | None => false end.

(** [buildItemSelection] (lines 234-245). *)
Definition buildItemSelection (masterDiscount : MasterDiscount) : json :=
  let it := items (customerGets masterDiscount) in
  if truthy_bool (allItems it) then JObj [("all", JStr "ALL")]
  else match products it with
       | Some productIds =>
           JObj [("products", JObj [("productsToAdd", JArr (map JStr productIds))])]
       | None =>
           match collections it with
           | Some collectionIds =>
               JObj [("collections", JObj [("add", JArr (map JStr collectionIds))])]
           | None => JObj [("all", JStr "ALL")]
           end
       end.

(** [buildCustomerContext] (lines 247-254). *)
Definition buildCustomerContext (masterDiscount : MasterDiscount) : json :=
  let c := context masterDiscount in
  if truthy_str (all c) then JObj [("all", JStr "ALL")]
  else match customers c with
       | Some ids => JObj [("customers", JObj [("add", JArr (map JStr ids))])]
       | None => JObj [("all", JStr "ALL")]
       end.

(** [customerGets.value] of the request (lines 270-277): reading
    [value.amount.amount] when the template has no [amount] throws. *)
Definition buildValue (masterDiscount : MasterDiscount) : res json :=
  let v := value (customerGets masterDiscount) in
  if truthy_num (percentage v) then
    match percentage v with
    | Some p => Ok (JObj [("percentage", JNum p)])
    | None => Ok JNull
    end
  else match value_amount v with
       | Some m =>
           Ok (JObj [("discountAmount",
                      JObj [("amount", JStr (amount m));
                            ("appliesOnEachItem", JBool false)])])
       | None => Err "Cannot read properties of undefined (reading 'amount')"
       end.

Definition opt_str_json (s : option string) : json :=
  match s with Some v => JStr v | None => JNull end.

Definition opt_int_json (n : option Z) : json :=
  match n with Some v => JNum (inject_Z v) | None => JNull end.

(** [discountInput] (lines 263-283). *)
Definition discountInput (masterDiscount : MasterDiscount)
    (itemSelection customerContext : json) (c : string) : res json :=
  match buildValue masterDiscount with
  | Err m => Err m
  | Ok v =>
      Ok (JObj [("code", JStr c);
                ("title", JStr (title masterDiscount));
                ("startsAt", JStr (startsAt masterDiscount));
                ("endsAt", opt_str_json (endsAt masterDiscount));
                ("context", customerContext);
                ("customerGets", JObj [("value", v); ("items", itemSelection)]);
                ("minimumRequirement", minimumRequirement masterDiscount);
                ("usageLimit", opt_int_json (usageLimit masterDiscount));
                ("appliesOncePerCustomer",
                   JBool (appliesOncePerCustomer masterDiscount))])
  end.

(** ** The store: the [DiscountSet] and [Discount] tables *)

Inductive DiscountStatus := PENDING | CREATED | FAILED.

Definition status_eqb (a b : DiscountStatus) : bool :=
  match a, b with
  | PENDING, PENDING | CREATED, CREATED | FAILED, FAILED => true
  | _, _ => false
  end.

Record Discount := mkDiscount {
  id : nat;
  shop : string;
  shopifyId : option string;
  code : string;
  masterDiscountId : string;
  discountSetId : option nat;
  status : DiscountStatus;
  errorMessage : option string
}.

Record DiscountSet := mkDiscountSet {
  set_id : nat;
  set_name : string;
  set_shop : string;
  set_masterDiscountId : string
}.

Record Db := mkDb {
  discountSets : list DiscountSet;
  discounts : list Discount;
  next_id : nat
}.

Definition empty_db : Db := mkDb [] [] 0.

(** [db.discountSet.findUnique({ where: { id } })]. *)
Definition find_set (discountSetId : nat) (db : Db) : option DiscountSet :=
  find (fun ds => Nat.eqb (set_id ds) discountSetId) (discountSets db).

(** The [where] clause [{ discountSetId, status }]. *)
Definition in_set_with (s : nat) (st : DiscountStatus) (d : Discount) : bool :=
  match discountSetId d with
  | Some s' => Nat.eqb s' s && status_eqb (status d) st
  | None => false
  end.

Definition BATCH_SIZE : nat := 5.

(** [db.discount.findMany({ where: { discountSetId, status: 'PENDING' },
    take: BATCH_SIZE })] (lines 118-124). *)
Definition claim (discountSetId : nat) (db : Db) : list Discount :=
  firstn BATCH_SIZE (filter (in_set_with discountSetId PENDING) (discounts db)).

(** [db.discount.count({ where: { discountSetId, status: 'PENDING' } })]. *)
Definition count_pending (discountSetId : nat) (db : Db) : nat :=
  length (filter (in_set_with discountSetId PENDING) (discounts db)).

(** [db.discount.update({ where: { id }, data })]: throws when no row has
    that id. *)
Definition db_update (i : nat) (f : Discount -> Discount) (db : Db) : res Db :=
  if existsb (fun d => Nat.eqb (id d) i) (discounts db) then
    Ok (mkDb (discountSets db)
             (map (fun d => if Nat.eqb (id d) i then f d else d) (discounts db))
             (next_id db))
  else Err "Record to update not found.".

(** [data: { status: 'FAILED', errorMessage }]. *)
Definition markFailed (msg : string) (d : Discount) : Discount :=
  mkDiscount (id d) (shop d) (shopifyId d) (code d) (masterDiscountId d)
             (discountSetId d) FAILED (Some msg).

(** [data: { status: 'CREATED', shopifyId }]. *)
Definition markCreated (nid : string) (d : Discount) : Discount :=
  mkDiscount (id d) (shop d) (Some nid) (code d) (masterDiscountId d)
             (discountSetId d) CREATED (errorMessage d).

(** [data: { status: 'PENDING', errorMessage: null }] (retry_failed). *)
Definition resetPending (d : Discount) : Discount :=
  mkDiscount (id d) (shop d) (shopifyId d) (code d) (masterDiscountId d)
             (discountSetId d) PENDING None.

(** ** The gateway (Shopify Admin GraphQL) *)

(** Response of the validation query of [create_discounts] (lines 42-72):
    the call throws, or the body has [errors] (their messages), or it has
    [data] (absent: [None]) telling whether [discountNode?.discount] is set. *)
Inductive ValidateFetch :=
| VF_throw (msg : string)
| VF_errors (messages : list string)
| VF_ok (data : option bool).

(** Response of the template query of [process_pending] (lines 147-227):
    the call throws, or [data?.discountNode?.discount] is absent ([None]),
    a discount of another type (the fragment gives [{}]: [Some None]), or a
    [DiscountCodeBasic]. *)
Inductive TemplateFetch :=
| TF_throw (msg : string)
| TF_ok (discount : option (option MasterDiscount)).

Record UserError := mkUserError {
  field : option (list string);
  message : string
}.

(** Response of [discountCodeBasicCreate]: the call throws, or
    [data?.discountCodeBasicCreate?.userErrors] and [?.codeDiscountNode?.id]. *)
Inductive CreateResp :=
| CR_throw (msg : string)
| CR_ok (userErrors : option (list UserError)) (codeDiscountNode : option string).

Record Gateway := mkGateway {
  validateTemplate : string -> ValidateFetch;
  fetchTemplate : string -> TemplateFetch;
  createCode : json -> CreateResp
}.

(** Template literal [`${e.field}: ${e.message}`]: an array is joined with
    [","], [null] prints as ["null"]. *)
Definition userErrorText (e : UserError) : string :=
  match field e with
  | Some f => String.concat "," f
  | None => "null"
  end ++ ": " ++ message e.

Definition errorMsg (userErrors : list UserError) : string :=
  String.concat ", " (map userErrorText userErrors).

(** [userErrors?.length > 0]. *)
Definition has_user_errors (userErrors : option (list UserError)) : bool :=
  match userErrors with
  | Some l => Nat.ltb 0 (length l)
  | None => false
  end.

(** ** Action results (the objects [action] returns; message texts of the
    success results are left out) *)

Inductive ActionResult :=
| R_error (error : string)
| R_created (discountSetId : nat) (totalCodes : nat)
| R_processed (complete : bool) (processed : nat) (remaining : nat)
| R_retry (discountSetId : nat) (needsProcessing : bool).

(** ** [process_pending] (lines 104-352) *)

Section ProcessPending.

Variable gw : Gateway.
Variable masterDiscount : MasterDiscount.
Variable itemSelection customerContext : json.

(** The update the body of the [try] block (lines 263-323) asks for, or
    the exception it throws before any update. *)
Definition try_update (discountRecord : Discount) : option json * res (Discount -> Discount) :=
  match discountInput masterDiscount itemSelection customerContext (code discountRecord) with
  | Err m => (None, Err m)
  | Ok input =>
      (Some input,
       match createCode gw input with
       | CR_throw m => Err m
       | CR_ok userErrors codeDiscountNode =>
           if has_user_errors userErrors then
             Ok (markFailed (errorMsg (match userErrors with Some l => l | None => [] end)))
           else match codeDiscountNode with
                | Some nid => Ok (markCreated nid)
                | None => Ok (markFailed "Unexpected API response")
                end
       end)
  end.

(** One iteration of the loop, [try] and [catch] included: returns the new
    store, the creation requests sent, and [Err] when the [catch] block
    itself throws (then the exception leaves the loop). *)
Definition process_item (discountRecord : Discount) (db : Db) (log : list json)
    : Db * list json * res unit :=
  let '(sent, attempt) := try_update discountRecord in
  let log1 := match sent with Some input => (log ++ [input])%list | None => log end in
  let tried := match attempt with
               | Ok f => db_update (id discountRecord) f db
               | Err m => Err m
               end in
  match tried with
  | Ok db1 => (db1, log1, Ok tt)
  | Err m =>
      match db_update (id discountRecord) (markFailed (msg_or m "Unknown error")) db with
      | Ok db1 => (db1, log1, Ok tt)
      | Err m' => (db, log1, Err m')
      end
  end.

(** [for (const discountRecord of pendingDiscounts) { ... processedCount++ }]. *)
Fixpoint process_loop (pending : list Discount) (db : Db) (log : list json)
    (processedCount : nat) : Db * list json * res nat :=
  match pending with
  | [] => (db, log, Ok processedCount)
  | r :: rs =>
      match process_item r db log with
      | (db1, log1, Ok _) => process_loop rs db1 log1 (S processedCount)
      | (db1, log1, Err m) => (db1, log1, Err m)
      end
  end.

(** The update the loop applies to the row of a claimed record. *)
Definition item_update (discountRecord : Discount) : Discount -> Discount :=
  match snd (try_update discountRecord) with
  | Ok f => f
  | Err m => markFailed (msg_or m "Unknown error")
  end.

End ProcessPending.

(** The whole action: returns the new store, the creation requests sent to
    the gateway (in order) and the result object. *)
Definition process_pending (gw : Gateway) (discountSetId : nat) (db : Db)
    : Db * list json * ActionResult :=
  match find_set discountSetId db with
  | None => (db, [], R_error "Discount set not found")
  | Some discountSet =>
      match claim discountSetId db with
      | [] => (db, [], R_processed true 0 0)
      | pendingDiscounts =>
          match fetchTemplate gw (set_masterDiscountId discountSet) with
          | TF_throw m => (db, [], R_error (msg_or m "An error occurred"))
          | TF_ok None => (db, [], R_error "Master discount no longer exists")
          | TF_ok (Some None) =>
              (db, [], R_error "Cannot read properties of undefined (reading 'items')")
          | TF_ok (Some (Some masterDiscount)) =>
              let itemSelection := buildItemSelection masterDiscount in
              let customerContext := buildCustomerContext masterDiscount in
              match process_loop gw masterDiscount itemSelection customerContext
                      pendingDiscounts db [] 0 with
              | (db1, log, Ok processedCount) =>
                  let remainingCount := count_pending discountSetId db1 in
                  (db1, log, R_processed (Nat.eqb remainingCount 0) processedCount remainingCount)
              | (db1, log, Err m) => (db1, log, R_error (msg_or m "An error occurred"))
              end
          end
      end
  end.

(** ** [create_discounts] (lines 30-101) *)

Definition format_id (masterDiscountId : string) : string :=
  if String.prefix "gid://" masterDiscountId then masterDiscountId
  else "gid://shopify/DiscountCodeNode/" ++ masterDiscountId.

Fixpoint new_rows (sh fid : string) (sid n : nat) (codes : list string) : list Discount :=
  match codes with
  | [] => []
  | c :: cs => mkDiscount n sh None c fid (Some sid) PENDING None :: new_rows sh fid sid (S n) cs
  end.

Fixpoint nodup_str (l : list string) : bool :=
  match l with
  | [] => true
  | x :: xs => negb (existsb (String.eqb x) xs) && nodup_str xs
  end.

(** [db.discount.createMany]: one insert, refused as a whole when it would
    break the unique index on [(shop, code)]. *)
Definition createMany (sh fid : string) (sid : nat) (codes : list string) (db : Db) : res Db :=
  if nodup_str codes
     && forallb (fun c => negb (existsb (fun d => String.eqb (shop d) sh && String.eqb (code d) c)
                                        (discounts db))) codes
  then Ok (mkDb (discountSets db)
                (discounts db ++ new_rows sh fid sid (next_id db) codes)%list
                (next_id db + length codes))
  else Err "Unique constraint failed on the fields: (`shop`,`code`)".

Definition create_discounts (gw : Gateway) (sh masterDiscountId discountSetName : string)
    (codes : list string) (db : Db) : Db * ActionResult :=
  let fid := format_id masterDiscountId in
  match validateTemplate gw fid with
  | VF_throw m => (db, R_error (msg_or m "An error occurred"))
  | VF_errors [] => (db, R_error "Cannot read properties of undefined (reading 'message')")
  | VF_errors (m :: _) => (db, R_error ("GraphQL Error: " ++ m ++ ". Using ID: " ++ fid))
  | VF_ok None => (db, R_error "Cannot read properties of undefined (reading 'discountNode')")
  | VF_ok (Some false) =>
      (db, R_error ("Master discount not found with ID: " ++ fid
                    ++ ". Please check if the discount exists."))
  | VF_ok (Some true) =>
      let sid := next_id db in
      let db1 := mkDb (discountSets db ++ [mkDiscountSet sid discountSetName sh fid])%list
                      (discounts db) (S sid) in
      match createMany sh fid sid codes db1 with
      | Ok db2 => (db2, R_created sid (length codes))
      | Err m => (db1, R_error (msg_or m "An error occurred"))
      end
  end.

(** ** [retry_failed] (lines 355-382) *)

Definition retry_failed (discountSetId : nat) (db : Db) : Db * ActionResult :=
  let db1 := mkDb (discountSets db)
                  (map (fun d => if in_set_with discountSetId FAILED d then resetPending d else d)
                       (discounts db))
                  (next_id db) in
  let pendingCount := count_pending discountSetId db1 in
  (db1, R_retry discountSetId (Nat.ltb 0 pendingCount)).

(** ** Sequences of actions *)

Inductive Op :=
| OpSubmit (gw : Gateway) (sh masterDiscountId name : string) (codes : list string)
| OpProcess (gw : Gateway) (discountSetId : nat)
| OpRetry (discountSetId : nat).

Definition run_op (o : Op) (db : Db) : Db :=
  match o with
  | OpSubmit gw sh m n codes => fst (create_discounts gw sh m n codes db)
  | OpProcess gw s => fst (fst (process_pending gw s db))
  | OpRetry s => fst (retry_failed s db)
  end.

Fixpoint run_ops (ops : list Op) (db : Db) : Db :=
  match ops with
  | [] => db
  | o :: os => run_ops os (run_op o db)
  end.

(** Well-formed store: primary keys of [Discount] are distinct and below
    the id counter. *)
Fixpoint nodup_nat (l : list nat) : bool :=
  match l with
  | [] => true
  | x :: xs => negb (existsb (Nat.eqb x) xs) && nodup_nat xs
  end.

Definition wf (db : Db) : bool :=
  nodup_nat (map id (discounts db)) && forallb (fun d => Nat.ltb (id d) (next_id db)) (discounts db).

(** ** Deleting (lines 384-467)

    [discountCodeDelete] is sent for some rows before the database is
    touched; its response is never read and a thrown error is caught and
    logged, so only the list of ids sent is observable.  A missing row makes
    Prisma's [delete] throw, which the outer [catch] turns into
    [{ error: message }]. *)

Inductive DeleteResult :=
| DelError (error : string)
| DelSuccess (message : string).

(** [discount.shopifyId && discount.status === 'CREATED']: an empty id is
    falsy in JavaScript. *)
Definition remote_id_to_delete (d : Discount) : option string :=
  match shopifyId d with
  | Some sid => if String.eqb sid "" then None
                else if status_eqb (status d) CREATED then Some sid else None
  | None => None
  end.

Definition remote_ids_to_delete (ds : list Discount) : list string :=
  flat_map (fun d => match remote_id_to_delete d with Some x => [x] | None => [] end) ds.

(** The relation [where: { discountSetId }] (any status). *)
Definition in_set (sid : nat) (d : Discount) : bool :=
  match discountSetId d with
  | Some s => Nat.eqb s sid
  | None => false
  end.

(** [delete_discount_set]: [findMany] the set's rows, delete their Shopify
    codes, then [db.discountSet.delete]; the foreign key
    [Discount_discountSetId_fkey] is [ON DELETE CASCADE] (migration in
    src/unnamed/part_000), so the set's rows go with it. *)
Definition delete_discount_set (sid : nat) (db : Db) : Db * list string * DeleteResult :=
  let sent := remote_ids_to_delete (filter (in_set sid) (discounts db)) in
  match find_set sid db with
  | None => (db, sent, DelError "Record to delete does not exist.")
  | Some _ =>
      (mkDb (filter (fun ds => negb (Nat.eqb (set_id ds) sid)) (discountSets db))
            (filter (fun d => negb (in_set sid d)) (discounts db))
            (next_id db),
       sent, DelSuccess "Discount set deleted successfully")
  end.

(** [delete_single_discount]: [findUnique], delete the Shopify code when the
    row is [CREATED] with an id, then [db.discount.delete]. *)
Definition delete_single_discount (discountId : nat) (db : Db) : Db * list string * DeleteResult :=
  match find (fun d => Nat.eqb (id d) discountId) (discounts db) with
  | None => (db, [], DelError "Record to delete does not exist.")
  | Some discount =>
      (mkDb (discountSets db)
            (filter (fun d => negb (Nat.eqb (id d) discountId)) (discounts db))
            (next_id db),
       remote_ids_to_delete [discount], DelSuccess "Discount deleted successfully")
  end.

(** ** [loader] (lines 6-21) and the set cards (lines 748-757)

    [orderBy: { createdAt: 'desc' }] is newest first; rows are kept in
    insertion order, so newest first is the reversed list (rows written by
    one [createMany] share their timestamp, and their relative order is
    not fixed by the query). *)

Definition loader (sh : string) (db : Db) : list (DiscountSet * list Discount) :=
  map (fun ds => (ds, rev (filter (in_set (set_id ds)) (discounts db))))
      (rev (filter (fun ds => String.eqb (set_shop ds) sh) (discountSets db))).

Definition count_status (st : DiscountStatus) (ds : list Discount) : nat :=
  length (filter (fun d => status_eqb (status d) st) ds).

(** [pendingCount], [failedCount], [createdCount] of a set card. *)
Definition card_counts (discountSet : DiscountSet * list Discount) : nat * nat * nat :=
  (count_status PENDING (snd discountSet), count_status FAILED (snd discountSet),
   count_status CREATED (snd discountSet)).

(** ** The page's processing state (lines 495-543, 614-634)

    The display message is left out; [processData] is the last response of
    [processFetcher], which only ever posts [process_pending].  Set ids are
    non-empty strings in the source, so always truthy. *)

Record Client := mkClient {
  processingSetId : option nat;
  processedCount : nat;
  totalToProcess : nat;
  processData : option ActionResult
}.

(** The [useEffect] on [actionData] (lines 502-509). *)
Definition startProcessing (actionData : ActionResult) (c : Client) : Client :=
  match actionData with
  | R_created sid totalCodes => mkClient (Some sid) 0 totalCodes (processData c)
  | R_retry sid true => mkClient (Some sid) 0 0 (processData c)
  | _ => c
  end.

(** [handleResumeProcessing] over the loader's sets. *)
Definition handleResumeProcessing (discountSets : list (DiscountSet * list Discount))
    (discountSetId : nat) (c : Client) : Client :=
  let pendingCount :=
    match find (fun v => Nat.eqb (set_id (fst v)) discountSetId) discountSets with
    | Some v => count_status PENDING (snd v)
    | None => 0
    end in
  if Nat.ltb 0 pendingCount then mkClient (Some discountSetId) 0 pendingCount (processData c)
  else c.

Definition is_complete (r : option ActionResult) : bool :=
  match r with
  | Some (R_processed true _ _) => true
  | _ => false
  end.

(** One run of the polling [useEffect] once [processFetcher] is idle: the
    new state and the [process_pending] request it schedules, if any. *)
Definition poll_effect (c : Client) : Client * option nat :=
  match processingSetId c with
  | None => (c, None)
  | Some sid =>
      if is_complete (processData c) then
        (mkClient None (processedCount c) (totalToProcess c) (processData c), None)
      else
        let count :=
          match processData c with
          | Some (R_processed _ p _) => if Nat.eqb p 0 then processedCount c else processedCount c + p
          | _ => processedCount c
          end in
        (mkClient (Some sid) count (totalToProcess c) (processData c), Some sid)
  end.

(** The polling loop: each scheduled request runs [process_pending] with
    the gateway of call [k]; its response becomes [processData], which runs
    the effect again.  Returns the store, the page state and the number of
    requests sent. *)
Fixpoint poll (fuel : nat) (gws : nat -> Gateway) (k : nat) (db : Db) (c : Client)
    : Db * Client * nat :=
  match fuel with
  | O => (db, c, 0)
  | S fuel' =>
      match poll_effect c with
      | (c1, None) => (db, c1, 0)
      | (c1, Some sid) =>
          let '(db1, _, r) := process_pending (gws k) sid db in
          let '(db2, c2, n) :=
            poll fuel' gws (S k) db1
                 (mkClient (processingSetId c1) (processedCount c1) (totalToProcess c1) (Some r)) in
          (db2, c2, S n)
      end
  end.

(** ** CSV parsing in [handleCsvChange] (lines 553-559)

    Characters are UTF-16 code units below 256 (Latin-1).  [trim] removes
    what JavaScript counts as white space or line terminators in that range:
    tab, line feed, vertical tab, form feed, carriage return, space and
    no-break space. *)

Definition js_whitespace (c : ascii) : bool :=
  let n := nat_of_ascii c in
  Nat.eqb n 9 || Nat.eqb n 10 || Nat.eqb n 11 || Nat.eqb n 12 || Nat.eqb n 13
  || Nat.eqb n 32 || Nat.eqb n 160.

(** The character class [[\n,]]. *)
Definition is_sep (c : ascii) : bool :=
  Ascii.eqb c "010"%char || Ascii.eqb c ","%char.

(** [content.split(/[\n,]/)]: always at least one field. *)
Fixpoint split_sep (s : string) : list string :=
  match s with
  | EmptyString => [EmptyString]
  | String c s' =>
      let parts := split_sep s' in
      if is_sep c then EmptyString :: parts
      else match parts with
           | p :: ps => String c p :: ps
           | [] => [String c EmptyString]
           end
  end.

Fixpoint trim_start (s : string) : string :=
  match s with
  | EmptyString => EmptyString
  | String c s' => if js_whitespace c then trim_start s' else s
  end.

Fixpoint trim_end (s : string) : string :=
  match s with
  | EmptyString => EmptyString
  | String c s' =>
      match trim_end s' with
      | EmptyString => if js_whitespace c then EmptyString else String c EmptyString
      | r => String c r
      end
  end.

(** [String.prototype.trim]. *)
Definition trim (s : string) : string := trim_end (trim_start s).

(** [self.indexOf(code)], [None] for -1. *)
Fixpoint index_of (x : string) (l : list string) : option nat :=
  match l with
  | [] => None
  | y :: ys => if String.eqb x y then Some 0
               else match index_of x ys with Some i => Some (S i) | None => None end
  end.

Definition opt_nat_eqb (a : option nat) (i : nat) : bool :=
  match a with Some j => Nat.eqb j i | None => false end.

(** [.filter((code, index, self) => self.indexOf(code) === index)], walking
    [self] with the running [index]. *)
Fixpoint dedupe_from (self l : list string) (index : nat) : list string :=
  match l with
  | [] => []
  | code :: rest =>
      if opt_nat_eqb (index_of code self) index then code :: dedupe_from self rest (S index)
      else dedupe_from self rest (S index)
  end.

Definition dedupe (self : list string) : list string := dedupe_from self self 0.

(** The codes parsed from the file's text.  [code && code.length > 0] is
    one test: both reject exactly the empty string. *)
Definition parseCodes (content : string) : list string :=
  dedupe (filter (fun code => negb (String.eqb code "")) (map trim (split_sep content))).

(** [handleGenerateDiscounts] (lines 567-588): the form it posts, or
    nothing when a field is empty; [JSON.stringify] of the codes is read
    back by [JSON.parse] in the action. *)
Definition handleGenerateDiscounts (masterDiscountId discountSetName : string)
    (parsedCodes : list string) : option (string * string * list string) :=
  if String.eqb masterDiscountId "" || String.eqb discountSetName ""
     || Nat.eqb (length parsedCodes) 0
  then None
  else Some (masterDiscountId, discountSetName, parsedCodes).

(** ** Concrete fixtures *)

(** A [DiscountCodeBasic] template: 10 percent off all items, for all
    customers, with the given usage limit and once-per-customer flag. *)
Definition template_pct (pct : Q) (limit : option Z) (once : bool) : MasterDiscount :=
  mkMasterDiscount "Spring sale" JNull
    (mkCustomerGets (mkDiscountValue (Some pct) None)
                    (mkDiscountItems (Some true) None None))
    (mkDiscountContext (Some "ALL") None)
    limit once "2026-01-01T00:00:00Z" None.

(** A gateway that knows one template and creates every code it is sent,
    answering with the id ["gid://shopify/DiscountCodeNode/1"]. *)
Definition gw_ok (md : MasterDiscount) : Gateway :=
  mkGateway (fun _ => VF_ok (Some true))
            (fun _ => TF_ok (Some (Some md)))
            (fun _ => CR_ok (Some []) (Some "gid://shopify/DiscountCodeNode/1")).

Definition twelve_codes : list string :=
  ["C01"; "C02"; "C03"; "C04"; "C05"; "C06"; "C07"; "C08"; "C09"; "C10"; "C11"; "C12"].

Definition db12 : Db :=
  fst (create_discounts (gw_ok (template_pct (10 # 1) None false))
                        "shop.myshopify.com" "42" "Batch" twelve_codes empty_db).

(** A store with rows of two sets in every status. *)
Definition db_mixed : Db :=
  mkDb [mkDiscountSet 0 "A" "shop" "gid://shopify/DiscountCodeNode/42";
        mkDiscountSet 1 "B" "shop" "gid://shopify/DiscountCodeNode/42"]
       [mkDiscount 2 "shop" (Some "gid://shopify/DiscountCodeNode/7") "A1"
                   "gid://shopify/DiscountCodeNode/42" (Some 0) CREATED None;
        mkDiscount 3 "shop" None "A2" "gid://shopify/DiscountCodeNode/42" (Some 0) FAILED
                   (Some "code: Code must be unique");
        mkDiscount 4 "shop" None "A3" "gid://shopify/DiscountCodeNode/42" (Some 0) PENDING None;
        mkDiscount 5 "shop" None "B1" "gid://shopify/DiscountCodeNode/42" (Some 1) FAILED
                   (Some "Unknown error")]
       6.

(** The gateway of [gw_ok] whose creation call throws an [Error] with an
    empty message. *)
Definition gw_throw_empty (md : MasterDiscount) : Gateway :=
  mkGateway (fun _ => VF_ok (Some true))
            (fun _ => TF_ok (Some (Some md)))
            (fun _ => CR_throw "").

(** A gateway whose template fetch finds nothing. *)
Definition gw_gone : Gateway :=
  mkGateway (fun _ => VF_ok (Some false)) (fun _ => TF_ok None)
            (fun _ => CR_ok (Some []) (Some "gid://shopify/DiscountCodeNode/1")).

Definition set12 : DiscountSet :=
  mkDiscountSet 0 "Batch" "shop.myshopify.com" "gid://shopify/DiscountCodeNode/42".

Definition g12 : Gateway := gw_ok (template_pct (10 # 1) None false).

Definition run12 : Db * list json * ActionResult := process_pending g12 0 db12.

(** The first set of [db_mixed] and its [CREATED] row. *)
Definition setA : DiscountSet := mkDiscountSet 0 "A" "shop" "gid://shopify/DiscountCodeNode/42".

Definition rowA1 : Discount :=
  mkDiscount 2 "shop" (Some "gid://shopify/DiscountCodeNode/7") "A1"
             "gid://shopify/DiscountCodeNode/42" (Some 0) CREATED None.

(** A file mixing both formats, with a repeated code and stray spaces. *)
Definition csv_sample : string :=
  "SAVE10, HOLIDAY20" ++ String "010"%char (" save10 ,SAVE10,CYBER30 " ++ String "010"%char "").

(** ** Specifications used by the theorems *)

(** Every character of a string satisfies [f]. *)
Fixpoint str_forallb (f : ascii -> bool) (s : string) : bool :=
  match s with
  | EmptyString => true
  | String c s' => f c && str_forallb f s'
  end.

(** Every comma of a text replaced by a line break. *)
Fixpoint commas_to_newlines (s : string) : string :=
  match s with
  | EmptyString => EmptyString
  | String c s' => String (if Ascii.eqb c ","%char then "010"%char else c) (commas_to_newlines s')
  end.


(** The status invariant of the [Discount] table, as three equivalences. *)
Definition status_inv (d : Discount) : Prop :=
  (status d = CREATED <-> shopifyId d <> None /\ errorMessage d = None) /\
  (status d = FAILED <-> errorMessage d <> None /\ shopifyId d = None) /\
  (status d = PENDING <-> shopifyId d = None /\ errorMessage d = None).

Definition store_inv (db : Db) : Prop :=
  forall d, In d (discounts db) -> status_inv d.

(** What the loop does to the row of one claimed record [r]. *)
Definition apply_claimed (gw : Gateway) (md : MasterDiscount) (sel ctx : json)
    (recs : list Discount) (d : Discount) : Discount :=
  match find (fun r => Nat.eqb (id r) (id d)) recs with
  | Some r => item_update gw md sel ctx r d
  | None => d
  end.

(** The creation request sent for a claimed record, when it can be built. *)
Definition sent_for (gw : Gateway) (md : MasterDiscount) (sel ctx : json)
    (r : Discount) : list json :=
  match fst (try_update gw md sel ctx r) with
  | Some input => [input]
  | None => []
  end.

(** No [retry_failed] on the set [s] (of an item) in [ops]. *)
Definition no_retry_on (s : option nat) (ops : list Op) : bool :=
  forallb (fun o => match o, s with
                    | OpRetry s', Some s0 => negb (Nat.eqb s' s0)
                    | _, _ => true
                    end) ops.

(** The status invariant as a boolean test of one row. *)
Definition status_inv_b (d : Discount) : bool :=
  match status d, shopifyId d, errorMessage d with
  | CREATED, Some _, None | FAILED, None, Some _ | PENDING, None, None => true
  | _, _, _ => false
  end.

(** The template query returned a [DiscountCodeBasic]. *)
Definition is_template (t : TemplateFetch) : bool :=
  match t with TF_ok (Some (Some _)) => true | _ => false end.

(** The template query failed: the call threw, or no discount came back. *)
Definition template_unavailable (t : TemplateFetch) : bool :=
  match t with TF_throw _ | TF_ok None => true | _ => false end.

(** The validation query of [create_discounts] did not resolve the
    template reference. *)
Definition validation_fails (v : ValidateFetch) : bool :=
  match v with VF_ok (Some true) => false | _ => true end.

(** How the claim describes the handling of one claimed item [r]: the row
    [d'] it leaves, by the outcome of building and sending its request. *)
Inductive item_outcome (gw : Gateway) (md : MasterDiscount) (r : Discount) : Discount -> Prop :=
| out_rejected input ue node :
    discountInput md (buildItemSelection md) (buildCustomerContext md) (code r) = Ok input ->
    createCode gw input = CR_ok (Some ue) node -> ue <> [] ->
    item_outcome gw md r (markFailed (errorMsg ue) r)
| out_created input ue nid :
    discountInput md (buildItemSelection md) (buildCustomerContext md) (code r) = Ok input ->
    createCode gw input = CR_ok ue (Some nid) -> has_user_errors ue = false ->
    item_outcome gw md r (markCreated nid r)
| out_unexpected input ue :
    discountInput md (buildItemSelection md) (buildCustomerContext md) (code r) = Ok input ->
    createCode gw input = CR_ok ue None -> has_user_errors ue = false ->
    item_outcome gw md r (markFailed "Unexpected API response" r)
| out_thrown input m :
    discountInput md (buildItemSelection md) (buildCustomerContext md) (code r) = Ok input ->
    createCode gw input = CR_throw m ->
    item_outcome gw md r (markFailed (msg_or m "Unknown error") r)
| out_not_built m :
    discountInput md (buildItemSelection md) (buildCustomerContext md) (code r) = Err m ->
    item_outcome gw md r (markFailed (msg_or m "Unknown error") r).

(** The creation requests of the claimed items, in claim order. *)
Definition requests_for (md : MasterDiscount) (recs : list Discount) : list json :=
  flat_map (fun r => match discountInput md (buildItemSelection md) (buildCustomerContext md) (code r) with
                     | Ok input => [input]
                     | Err _ => []
                     end) recs.

(** ** Generic lemmas on lists and the store *)

Lemma nodup_nat_spec (l : list nat) : nodup_nat l = true <-> NoDup l.
Proof.
  induction l as [|x xs IH]; simpl.
  - split; [constructor | reflexivity].
  - rewrite andb_true_iff, negb_true_iff, NoDup_cons_iff, <- IH.
    split; intros [H1 H2]; split; auto.
    + intro Hin. assert (existsb (Nat.eqb x) xs = true) as E.
      { apply existsb_exists. exists x. split; [assumption | apply Nat.eqb_refl]. }
      congruence.
    + destruct (existsb (Nat.eqb x) xs) eqn:E; [|reflexivity].
      apply existsb_exists in E as [y [Hy Hxy]]. apply Nat.eqb_eq in Hxy.
      subst y. contradiction.
Qed.

Lemma wf_spec (db : Db) :
  wf db = true <->
  NoDup (map id (discounts db)) /\ (forall d, In d (discounts db) -> id d < next_id db).
Proof.
  unfold wf. rewrite andb_true_iff, nodup_nat_spec, forallb_forall.
  split; intros [H1 H2]; split; auto; intros d Hd; specialize (H2 d Hd);
    apply Nat.ltb_lt; assumption.
Qed.

Lemma nodup_id_eq (l : list Discount) (a b : Discount) :
  NoDup (map id l) -> In a l -> In b l -> id a = id b -> a = b.
Proof.
  induction l as [|x xs IH]; simpl; [tauto|].
  intros Hnd Ha Hb Hab. inversion Hnd as [|? ? Hnotin Hnd']; subst.
  destruct Ha as [<-|Ha], Hb as [<-|Hb]; auto.
  - exfalso. apply Hnotin. rewrite Hab. apply in_map. assumption.
  - exfalso. apply Hnotin. rewrite <- Hab. apply in_map. assumption.
Qed.

Lemma in_firstn {A} (n : nat) (l : list A) (x : A) : In x (firstn n l) -> In x l.
Proof.
  revert l. induction n as [|n IH]; intros [|y ys]; simpl; try tauto.
  intros [->|H]; auto.
Qed.

Lemma nodup_map_firstn {A B} (f : A -> B) (n : nat) (l : list A) :
  NoDup (map f l) -> NoDup (map f (firstn n l)).
Proof.
  revert l. induction n as [|n IH]; intros [|y ys] Hnd; simpl; try constructor.
  - simpl in Hnd. apply NoDup_cons_iff in Hnd as [Hn _].
    intro Hin. apply Hn. apply in_map_iff in Hin as [z [<- Hz]].
    apply in_map. eapply in_firstn; eassumption.
  - simpl in Hnd. apply NoDup_cons_iff in Hnd as [_ Hnd]. apply IH, Hnd.
Qed.

Lemma nodup_map_filter {T U} (key : T -> U) (keep : T -> bool) (rows : list T) :
  NoDup (map key rows) -> NoDup (map key (filter keep rows)).
Proof.
  induction rows as [|y ys IH]; simpl; [constructor|].
  intro Hnd. inversion Hnd as [|? ? Hn Hnd']; subst.
  destruct (keep y); simpl; auto. constructor; auto.
  intro Hin. apply Hn. apply in_map_iff in Hin as [z [<- Hz]].
  apply filter_In in Hz as [Hz _]. apply in_map. assumption.
Qed.

Lemma claim_spec (s : nat) (db : Db) (r : Discount) :
  In r (claim s db) -> In r (discounts db) /\ in_set_with s PENDING r = true.
Proof.
  unfold claim. intro H. apply in_firstn in H. apply filter_In in H. exact H.
Qed.

Lemma claim_pending (s : nat) (db : Db) (r : Discount) :
  In r (claim s db) -> status r = PENDING /\ discountSetId r = Some s.
Proof.
  intro H. apply claim_spec in H as [_ H]. unfold in_set_with in H.
  destruct (discountSetId r) as [s'|]; [|discriminate].
  apply andb_true_iff in H as [H1 H2]. apply Nat.eqb_eq in H1. subst.
  destruct (status r); simpl in H2; try discriminate; auto.
Qed.

Lemma claim_nodup (s : nat) (db : Db) :
  NoDup (map id (discounts db)) -> NoDup (map id (claim s db)).
Proof.
  intro Hnd. unfold claim. apply nodup_map_firstn, nodup_map_filter, Hnd.
Qed.

(** ** The loop of [process_pending] *)

Section Loop.

Variable gw : Gateway.
Variable md : MasterDiscount.
Variable sel ctx : json.

Lemma item_update_cases (r d : Discount) :
  (exists m, item_update gw md sel ctx r d = markFailed m d) \/
  (exists nid, item_update gw md sel ctx r d = markCreated nid d).
Proof.
  unfold item_update, try_update.
  destruct (discountInput md sel ctx (code r)) as [input|m]; simpl; [|eauto].
  destruct (createCode gw input) as [m|ue node]; [eauto|].
  destruct (has_user_errors ue); [eauto|].
  destruct node; eauto.
Qed.

Lemma item_update_id (r d : Discount) : id (item_update gw md sel ctx r d) = id d.
Proof.
  destruct (item_update_cases r d) as [[m ->]|[nid ->]]; reflexivity.
Qed.

Lemma existsb_id_map (f : Discount -> Discount) (i : nat) (l : list Discount) :
  (forall d, id (f d) = id d) ->
  existsb (fun d => Nat.eqb (id d) i) (map f l) = existsb (fun d => Nat.eqb (id d) i) l.
Proof.
  intro Hf. induction l as [|x xs IH]; simpl; [reflexivity|]. rewrite Hf, IH. reflexivity.
Qed.

Lemma find_id_none (i : nat) (l : list Discount) :
  ~ In i (map id l) -> find (fun r => Nat.eqb (id r) i) l = None.
Proof.
  induction l as [|x xs IH]; simpl; [reflexivity|]. intro Hn.
  destruct (Nat.eqb_spec (id x) i); [tauto|]. apply IH. tauto.
Qed.

Lemma process_item_ok (r : Discount) (db : Db) (log : list json) :
  existsb (fun d => Nat.eqb (id d) (id r)) (discounts db) = true ->
  process_item gw md sel ctx r db log =
  (mkDb (discountSets db)
        (map (fun d => if Nat.eqb (id d) (id r) then item_update gw md sel ctx r d else d)
             (discounts db))
        (next_id db),
   (log ++ sent_for gw md sel ctx r)%list, Ok tt).
Proof.
  intro Hex. unfold process_item, item_update, sent_for.
  destruct (try_update gw md sel ctx r) as [sent attempt]. simpl.
  destruct attempt as [f|m]; unfold db_update; rewrite Hex;
    destruct sent; simpl; rewrite ?app_nil_r; reflexivity.
Qed.

Lemma process_loop_spec (recs : list Discount) (db : Db) (log : list json) (cnt : nat) :
  NoDup (map id recs) ->
  (forall r, In r recs -> existsb (fun d => Nat.eqb (id d) (id r)) (discounts db) = true) ->
  process_loop gw md sel ctx recs db log cnt =
  (mkDb (discountSets db) (map (apply_claimed gw md sel ctx recs) (discounts db)) (next_id db),
   (log ++ concat (map (sent_for gw md sel ctx) recs))%list,
   Ok (cnt + length recs)).
Proof.
  revert db log cnt. induction recs as [|r rs IH]; intros db log cnt Hnd Hex; simpl.
  - rewrite app_nil_r, Nat.add_0_r.
    rewrite (map_ext (apply_claimed gw md sel ctx []) (fun d => d)) by reflexivity.
    rewrite map_id. destruct db; reflexivity.
  - apply NoDup_cons_iff in Hnd as [Hnotin Hnd].
    rewrite process_item_ok by (apply Hex; left; reflexivity).
    rewrite IH; simpl.
    + rewrite map_map, app_assoc, Nat.add_succ_r. do 3 f_equal.
      apply map_ext. intro d. unfold apply_claimed at 2. simpl.
      rewrite (Nat.eqb_sym (id r) (id d)).
      destruct (Nat.eqb_spec (id d) (id r)) as [E|E]; [|reflexivity].
      unfold apply_claimed. rewrite item_update_id, E, find_id_none by assumption.
      reflexivity.
    + assumption.
    + intros r' Hr'. simpl. rewrite existsb_id_map.
      * apply Hex. right. assumption.
      * intro d. destruct (Nat.eqb (id d) (id r)); [apply item_update_id | reflexivity].
Qed.

Lemma process_loop_count (recs : list Discount) (db db' : Db) (log log' : list json)
    (cnt n : nat) :
  process_loop gw md sel ctx recs db log cnt = (db', log', Ok n) -> n = cnt + length recs.
Proof.
  revert db log cnt. induction recs as [|r rs IH]; intros db log cnt H; simpl in H.
  - inversion H; subst. simpl. lia.
  - destruct (process_item gw md sel ctx r db log) as [[db1 log1] [u|m]].
    + apply IH in H. simpl. lia.
    + discriminate.
Qed.

Lemma process_loop_log (recs : list Discount) (db db' : Db) (log log' : list json)
    (cnt : nat) (out : res nat) :
  process_loop gw md sel ctx recs db log cnt = (db', log', out) ->
  forall j, In j log' -> In j log \/ exists c, discountInput md sel ctx c = Ok j.
Proof.
  revert db log cnt. induction recs as [|r rs IH]; intros db log cnt H j Hj; simpl in H.
  - inversion H; subst. left. assumption.
  - assert (Hitem : forall db1 log1 u,
               process_item gw md sel ctx r db log = (db1, log1, u) ->
               forall j, In j log1 -> In j log \/ exists c, discountInput md sel ctx c = Ok j).
    { intros db1 log1 u Hp j' Hj'. unfold process_item, try_update in Hp.
      destruct (discountInput md sel ctx (code r)) as [input|m0] eqn:Ein; simpl in Hp.
      - assert (log1 = (log ++ [input])%list) as ->.
        { repeat match type of Hp with
                 | context [match ?x with _ => _ end] => destruct x
                 end; inversion Hp; reflexivity. }
        apply in_app_or in Hj' as [Hj'|[<-|[]]]; [left; assumption | right; eauto].
      - assert (log1 = log) as ->.
        { repeat match type of Hp with
                 | context [match ?x with _ => _ end] => destruct x
                 end; inversion Hp; reflexivity. }
        left. assumption. }
    destruct (process_item gw md sel ctx r db log) as [[db1 log1] [u|m]] eqn:Ep.
    + destruct (IH _ _ _ H j Hj) as [Hin|Hin]; [|right; assumption].
      eapply Hitem; eauto.
    + inversion H; subst. eapply Hitem; eauto.
Qed.

End Loop.

(** ** The store after one action *)

Lemma in_set_with_spec (s : nat) (st : DiscountStatus) (d : Discount) :
  in_set_with s st d = true <-> discountSetId d = Some s /\ status d = st.
Proof.
  unfold in_set_with. destruct (discountSetId d) as [s'|]; [|split; [discriminate | intros [? _]; discriminate]].
  rewrite andb_true_iff, Nat.eqb_eq.
  split; intros [H1 H2].
  - subst. split; [reflexivity|]. destruct (status d), st; simpl in H2; congruence.
  - injection H1 as ->. split; [reflexivity|]. subst. destruct (status d); reflexivity.
Qed.

Lemma process_pending_run (gw : Gateway) (s : nat) (db : Db) (ds : DiscountSet)
    (md : MasterDiscount) :
  wf db = true -> find_set s db = Some ds -> claim s db <> [] ->
  fetchTemplate gw (set_masterDiscountId ds) = TF_ok (Some (Some md)) ->
  let sel := buildItemSelection md in
  let ctx := buildCustomerContext md in
  let db' := mkDb (discountSets db) (map (apply_claimed gw md sel ctx (claim s db)) (discounts db))
                  (next_id db) in
  process_pending gw s db =
  (db', concat (map (sent_for gw md sel ctx) (claim s db)),
   R_processed (Nat.eqb (count_pending s db') 0) (length (claim s db)) (count_pending s db')).
Proof.
  intros Hwf Hf Hc Ht sel ctx db'. apply wf_spec in Hwf as [Hnd _].
  assert (Hcn := claim_nodup s db Hnd).
  assert (Hex : forall r, In r (claim s db) ->
                  existsb (fun d => Nat.eqb (id d) (id r)) (discounts db) = true).
  { intros r Hr. apply existsb_exists. exists r.
    split; [apply (claim_spec s db r Hr) | apply Nat.eqb_refl]. }
  unfold db'. unfold process_pending. rewrite Hf.
  destruct (claim s db) as [|c cs] eqn:Ec; [congruence|]. rewrite Ht.
  rewrite process_loop_spec by assumption. reflexivity.
Qed.

Lemma process_pending_cases (gw : Gateway) (s : nat) (db : Db) :
  wf db = true ->
  fst (fst (process_pending gw s db)) = db \/
  exists ds md, find_set s db = Some ds /\ claim s db <> [] /\
    fetchTemplate gw (set_masterDiscountId ds) = TF_ok (Some (Some md)) /\
    fst (fst (process_pending gw s db)) =
    mkDb (discountSets db)
         (map (apply_claimed gw md (buildItemSelection md) (buildCustomerContext md) (claim s db))
              (discounts db))
         (next_id db).
Proof.
  intro Hwf. destruct (find_set s db) as [ds|] eqn:Ef;
    [|left; unfold process_pending; rewrite Ef; reflexivity].
  destruct (claim s db) as [|c cs] eqn:Ec;
    [left; unfold process_pending; rewrite Ef, Ec; reflexivity|].
  assert (Hne : claim s db <> []) by congruence.
  destruct (fetchTemplate gw (set_masterDiscountId ds)) as [m|[[md|]|]] eqn:Et;
    try (left; unfold process_pending; rewrite Ef, Ec, Et; reflexivity).
  right. exists ds, md. rewrite <- Ec. repeat split; auto.
  rewrite (process_pending_run gw s db ds md Hwf Ef Hne Et). reflexivity.
Qed.

Lemma apply_claimed_row (gw : Gateway) (md : MasterDiscount) (sel ctx : json) (s : nat)
    (db : Db) (d : Discount) :
  NoDup (map id (discounts db)) -> In d (discounts db) ->
  (~ In (id d) (map id (claim s db)) /\ apply_claimed gw md sel ctx (claim s db) d = d) \/
  (In d (claim s db) /\ apply_claimed gw md sel ctx (claim s db) d = item_update gw md sel ctx d d).
Proof.
  intros Hnd Hd. unfold apply_claimed.
  destruct (find (fun r => Nat.eqb (id r) (id d)) (claim s db)) as [r|] eqn:Ef.
  - right. apply find_some in Ef as [Hr Hid]. apply Nat.eqb_eq in Hid.
    assert (r = d) as <- by (apply (nodup_id_eq (discounts db)); auto; apply (claim_spec s db r Hr)).
    auto.
  - left. split; [|reflexivity]. intro Hin. apply in_map_iff in Hin as [r [Hid Hr]].
    apply (find_none _ _ Ef) in Hr. rewrite Hid, Nat.eqb_refl in Hr. discriminate.
Qed.

Lemma map_apply_claimed_id (gw : Gateway) (md : MasterDiscount) (sel ctx : json)
    (recs ds : list Discount) :
  map id (map (apply_claimed gw md sel ctx recs) ds) = map id ds.
Proof.
  rewrite map_map. apply map_ext. intro d. unfold apply_claimed.
  destruct (find _ recs); [apply item_update_id | reflexivity].
Qed.

Lemma new_rows_spec (sh fid : string) (sid n : nat) (codes : list string) (d : Discount) :
  In d (new_rows sh fid sid n codes) ->
  status d = PENDING /\ shopifyId d = None /\ errorMessage d = None /\
  discountSetId d = Some sid /\ n <= id d < n + length codes.
Proof.
  revert n. induction codes as [|c cs IH]; intros n; simpl; [tauto|].
  intros [<-|H]; simpl.
  - repeat split; lia.
  - destruct (IH (S n) H) as (H1 & H2 & H3 & H4 & H5). repeat split; auto; lia.
Qed.

Lemma new_rows_ids (sh fid : string) (sid n : nat) (codes : list string) :
  map id (new_rows sh fid sid n codes) = seq n (length codes).
Proof.
  revert n. induction codes as [|c cs IH]; intros n; simpl; [reflexivity|]. rewrite IH. reflexivity.
Qed.

Lemma create_discounts_cases (gw : Gateway) (sh m n : string) (codes : list string) (db : Db) :
  let db' := fst (create_discounts gw sh m n codes db) in
  (discounts db' = discounts db /\ next_id db <= next_id db') \/
  (discounts db' = (discounts db ++ new_rows sh (format_id m) (next_id db) (S (next_id db)) codes)%list
   /\ next_id db' = S (next_id db) + length codes).
Proof.
  simpl. unfold create_discounts.
  destruct (validateTemplate gw (format_id m)) as [e|[|e es]|[[|]|]]; simpl; try solve [left; split; auto].
  unfold createMany. simpl.
  destruct (_ && _); simpl; [right; split; reflexivity | left; split; auto].
Qed.

Lemma wf_run_op (o : Op) (db : Db) : wf db = true -> wf (run_op o db) = true.
Proof.
  intro Hwf. pose proof Hwf as Hwf'. apply wf_spec in Hwf as [Hnd Hlt]. apply wf_spec.
  destruct o as [gw sh m n codes|gw s|s]; simpl.
  - destruct (create_discounts_cases gw sh m n codes db) as [[E Le]|[E Le]];
      simpl in E, Le; rewrite E.
    + split; [assumption|]. intros d Hd. specialize (Hlt d Hd). lia.
    + rewrite Le, map_app, new_rows_ids. split.
      * apply NoDup_app; [assumption | apply seq_NoDup |].
        intros a Ha Hb. apply in_seq in Hb. apply in_map_iff in Ha as [d [<- Hd]].
        specialize (Hlt d Hd). lia.
      * intros d Hd. apply in_app_or in Hd as [Hd|Hd].
        -- specialize (Hlt d Hd). lia.
        -- apply new_rows_spec in Hd. lia.
  - destruct (process_pending_cases gw s db Hwf') as [->|(ds & md & _ & _ & _ & ->)];
      [split; assumption|]. simpl.
    rewrite map_apply_claimed_id. split; [assumption|].
    intros d' Hd'. apply in_map_iff in Hd' as [d [<- Hd]].
    unfold apply_claimed. destruct (find _ _); [rewrite item_update_id|]; apply Hlt, Hd.
  - simpl. rewrite map_map. split.
    + erewrite map_ext; [exact Hnd|]. intro d. destruct (in_set_with s FAILED d); reflexivity.
    + intros d' Hd'. apply in_map_iff in Hd' as [d [<- Hd]].
      destruct (in_set_with s FAILED d); [unfold resetPending; simpl|]; apply Hlt, Hd.
Qed.

Lemma wf_run_ops (ops : list Op) (db : Db) : wf db = true -> wf (run_ops ops db) = true.
Proof.
  revert db. induction ops as [|o os IH]; intros db H; simpl; [assumption|].
  apply IH, wf_run_op, H.
Qed.

(** The invariant in the form of a case split on [status]. *)
Lemma status_inv_cases (d : Discount) :
  status_inv d <->
  match status d with
  | CREATED => shopifyId d <> None /\ errorMessage d = None
  | FAILED => errorMessage d <> None /\ shopifyId d = None
  | PENDING => shopifyId d = None /\ errorMessage d = None
  end.
Proof.
  unfold status_inv.
  destruct (status d), (shopifyId d), (errorMessage d);
    split; intuition (try discriminate; try congruence).
Qed.

Lemma store_inv_of_b (db : Db) : forallb status_inv_b (discounts db) = true -> store_inv db.
Proof.
  rewrite forallb_forall. intros H d Hd. apply status_inv_cases. specialize (H d Hd).
  unfold status_inv_b in H.
  destruct (status d), (shopifyId d), (errorMessage d); try discriminate; split; congruence.
Qed.

Lemma in_run_process (gw : Gateway) (s : nat) (db : Db) (d' : Discount) :
  wf db = true -> In d' (discounts (run_op (OpProcess gw s) db)) ->
  exists d, In d (discounts db) /\
    (d' = d \/ (In d (claim s db) /\ status d = PENDING /\
                ((exists m, d' = markFailed m d) \/ (exists nid, d' = markCreated nid d)))).
Proof.
  intros Hwf Hd'. simpl in Hd'. pose proof Hwf as Hwf'. apply wf_spec in Hwf' as [Hnd _].
  destruct (process_pending_cases gw s db Hwf) as [E|(ds & md & _ & _ & _ & E)];
    rewrite E in Hd'; simpl in Hd'.
  - exists d'. auto.
  - apply in_map_iff in Hd' as [d [<- Hd]]. exists d. split; [assumption|].
    destruct (apply_claimed_row gw md (buildItemSelection md) (buildCustomerContext md) s db d Hnd Hd)
      as [[_ ->]|[Hc ->]]; [left; reflexivity|].
    right. split; [assumption|]. split; [apply (claim_pending s db d Hc)|].
    apply item_update_cases.
Qed.

(** C2: the status invariant of the [Discount] table
    ([CREATED] iff [shopifyId] is set and [errorMessage] is null, [FAILED]
    iff [errorMessage] is set and [shopifyId] is null, [PENDING] iff both
    are null) is preserved by every store-changing action: the bulk insert of
    [create_discounts], the [markCreated]/[markFailed] updates of
    [process_pending], and [retry_failed]. *)
Theorem status_invariant_preserved (o : Op) (db : Db) :
  wf db = true -> store_inv db -> store_inv (run_op o db).
Proof.
  intros Hwf Hinv d' Hd'. destruct o as [gw sh m n codes|gw s|s].
  - simpl in Hd'.
    destruct (create_discounts_cases gw sh m n codes db) as [[E _]|[E _]];
      simpl in E; rewrite E in Hd'; [apply Hinv, Hd'|].
    apply in_app_or in Hd' as [Hd'|Hd']; [apply Hinv, Hd'|].
    apply new_rows_spec in Hd' as (H1 & H2 & H3 & _).
    apply status_inv_cases. rewrite H1. auto.
  - destruct (in_run_process gw s db d' Hwf Hd') as [d [Hd [->|[_ [Hp Hcase]]]]];
      [apply Hinv, Hd|].
    pose proof (Hinv d Hd) as Hi. apply status_inv_cases in Hi. rewrite Hp in Hi.
    destruct Hi as [Hs He].
    destruct Hcase as [[msg ->]|[nid ->]]; apply status_inv_cases; simpl.
    + split; [discriminate | assumption].
    + split; [discriminate | assumption].
  - simpl in Hd'. apply in_map_iff in Hd' as [d [<- Hd]].
    destruct (in_set_with s FAILED d) eqn:Ein; [|apply Hinv, Hd].
    apply in_set_with_spec in Ein as [_ Hst].
    pose proof (Hinv d Hd) as Hi. apply status_inv_cases in Hi. rewrite Hst in Hi.
    destruct Hi as [_ Hs]. apply status_inv_cases. simpl. auto.
Qed.

Lemma run_op_keeps_settled (o : Op) (db : Db) (d : Discount) :
  wf db = true -> In d (discounts db) -> status d <> PENDING ->
  no_retry_on (discountSetId d) [o] = true ->
  In d (discounts (run_op o db)).
Proof.
  intros Hwf Hd Hst Hr. pose proof Hwf as Hwf'. apply wf_spec in Hwf' as [Hnd _].
  destruct o as [gw sh m n codes|gw s|s].
  - simpl. destruct (create_discounts_cases gw sh m n codes db) as [[E _]|[E _]];
      simpl in E; rewrite E; [assumption|]. apply in_or_app. left. assumption.
  - simpl. destruct (process_pending_cases gw s db Hwf) as [->|(ds & md & _ & _ & _ & ->)];
      [assumption|]. simpl.
    destruct (apply_claimed_row gw md (buildItemSelection md) (buildCustomerContext md) s db d Hnd Hd)
      as [[_ E]|[Hc _]].
    + rewrite <- E. apply in_map. assumption.
    + exfalso. apply Hst. apply (claim_pending s db d Hc).
  - simpl. replace d with (if in_set_with s FAILED d then resetPending d else d).
    + apply (in_map (fun d => if in_set_with s FAILED d then resetPending d else d)). assumption.
    + destruct (in_set_with s FAILED d) eqn:Ein; [|reflexivity].
      apply in_set_with_spec in Ein as [Hs _]. exfalso.
      unfold no_retry_on in Hr. simpl in Hr. rewrite Hs, Nat.eqb_refl in Hr. discriminate.
Qed.

(** C7: [process_pending] never reclaims or reprocesses a settled item.
    Along any sequence of actions that runs no [retry_failed] on the item's
    own set, a [CREATED] or [FAILED] row stays in the store exactly as it
    is, and no claim of a later [process_pending] call selects a row with
    its id. *)
Theorem settled_rows_never_reprocessed (ops : list Op) (db : Db) (d : Discount) :
  wf db = true -> In d (discounts db) -> status d <> PENDING ->
  no_retry_on (discountSetId d) ops = true ->
  In d (discounts (run_ops ops db)) /\
  (forall s r, In r (claim s (run_ops ops db)) -> id r <> id d).
Proof.
  revert db. induction ops as [|o os IH]; intros db Hwf Hd Hst Hr.
  - split; [assumption|]. intros s r Hc Hid.
    apply wf_spec in Hwf as [Hnd _].
    assert (r = d) as ->.
    { apply (nodup_id_eq (discounts db)); auto. apply (claim_spec s db r Hc). }
    apply Hst, (claim_pending s db d Hc).
  - unfold no_retry_on in Hr. simpl in Hr. apply andb_true_iff in Hr as [Ho Hos].
    simpl. apply IH.
    + apply wf_run_op, Hwf.
    + apply run_op_keeps_settled; auto.
      unfold no_retry_on. simpl. rewrite Ho. reflexivity.
    + assumption.
    + exact Hos.
Qed.

(** ** Counting the [PENDING] rows left by one batch *)

Lemma count_firstn (P : Discount -> bool) (h : Discount -> Discount) (ds : list Discount) (k : nat) :
  NoDup (map id ds) ->
  (forall d, In d ds -> In (id d) (map id (firstn k (filter P ds))) -> P (h d) = false) ->
  (forall d, In d ds -> ~ In (id d) (map id (firstn k (filter P ds))) -> h d = d) ->
  length (filter P (map h ds)) = length (filter P ds) - length (firstn k (filter P ds)).
Proof.
  revert k. induction ds as [|d ds IH]; intros k Hnd Hin Hout; [destruct k; reflexivity|].
  apply NoDup_cons_iff in Hnd as [Hd Hnd].
  assert (Hfar : forall d', In d' ds -> id d' <> id d).
  { intros d' Hd' E. apply Hd. rewrite <- E. apply in_map, Hd'. }
  change (map h (d :: ds)) with (h d :: map h ds).
  destruct (P d) eqn:Pd.
  - assert (Ef : filter P (d :: ds) = d :: filter P ds) by (simpl; rewrite Pd; reflexivity).
    rewrite Ef in Hin, Hout |- *.
    destruct k as [|k].
    + assert (Hdd : h d = d) by (apply Hout; simpl; tauto).
      simpl. rewrite Hdd, Pd. simpl. rewrite (IH 0); auto.
      * simpl. lia.
      * intros d' _ Hi. simpl in Hi. contradiction.
      * intros d' Hd' _. apply Hout; [right; assumption | simpl; tauto].
    + simpl. rewrite (Hin d (or_introl eq_refl)) by (simpl; left; reflexivity).
      apply IH; auto.
      * intros d' Hd' Hi. apply Hin; [right; assumption | simpl; right; assumption].
      * intros d' Hd' Hi. apply Hout; [right; assumption|].
        simpl. intros [E|E]; [apply (Hfar d' Hd'); symmetry; assumption | contradiction].
  - assert (Ef : filter P (d :: ds) = filter P ds) by (simpl; rewrite Pd; reflexivity).
    rewrite Ef in Hin, Hout |- *.
    assert (Hdd : h d = d).
    { apply Hout; [left; reflexivity|]. intro Hi. apply in_map_iff in Hi as [r [E Hr]].
      apply in_firstn, filter_In in Hr as [Hr _]. apply (Hfar r Hr E). }
    simpl. rewrite Hdd, Pd. apply IH; auto.
    + intros d' Hd' Hi. apply Hin; [right; assumption | assumption].
    + intros d' Hd' Hi. apply Hout; [right; assumption | assumption].
Qed.

Lemma count_pending_after (gw : Gateway) (md : MasterDiscount) (s : nat) (db : Db) :
  NoDup (map id (discounts db)) ->
  length (filter (in_set_with s PENDING)
            (map (apply_claimed gw md (buildItemSelection md) (buildCustomerContext md) (claim s db))
                 (discounts db)))
  = count_pending s db - length (claim s db).
Proof.
  intro Hnd. unfold count_pending. unfold claim at 2. apply count_firstn; auto.
  - intros d Hd Hi.
    destruct (apply_claimed_row gw md (buildItemSelection md) (buildCustomerContext md) s db d Hnd Hd)
      as [[Hn _]|[_ ->]]; [contradiction|].
    destruct (item_update_cases gw md (buildItemSelection md) (buildCustomerContext md) d d)
      as [[m ->]|[nid ->]]; unfold in_set_with; simpl;
      destruct (discountSetId d); rewrite ?andb_false_r; reflexivity.
  - intros d Hd Hi.
    destruct (apply_claimed_row gw md (buildItemSelection md) (buildCustomerContext md) s db d Hnd Hd)
      as [[_ E]|[Hc _]]; [exact E|].
    exfalso. apply Hi. apply in_map, Hc.
Qed.

Lemma length_claim (s : nat) (db : Db) : length (claim s db) = Nat.min BATCH_SIZE (count_pending s db).
Proof. unfold claim, count_pending. apply length_firstn. Qed.

Lemma batch_step (gw : Gateway) (s : nat) (db : Db) (ds : DiscountSet) :
  wf db = true -> find_set s db = Some ds ->
  is_template (fetchTemplate gw (set_masterDiscountId ds)) = true ->
  let '(db', _, r) := process_pending gw s db in
  wf db' = true /\ find_set s db' = Some ds /\
  count_pending s db' = count_pending s db - Nat.min BATCH_SIZE (count_pending s db) /\
  r = R_processed (Nat.eqb (count_pending s db') 0) (Nat.min BATCH_SIZE (count_pending s db))
                  (count_pending s db').
Proof.
  intros Hwf Hf Ht. rewrite <- length_claim.
  destruct (fetchTemplate gw (set_masterDiscountId ds)) as [m|[[md|]|]] eqn:Et; try discriminate.
  destruct (claim s db) as [|c cs] eqn:Ec.
  - assert (count_pending s db = 0) as Hz.
    { pose proof (length_claim s db) as L. rewrite Ec in L. unfold BATCH_SIZE in L.
      destruct (count_pending s db); [reflexivity | simpl in L; discriminate]. }
    unfold process_pending. rewrite Hf, Ec. simpl. rewrite Hz. auto.
  - assert (Hne : claim s db <> []) by congruence.
    rewrite <- Ec. rewrite (process_pending_run gw s db ds md Hwf Hf Hne Et).
    pose proof Hwf as Hwf'. apply wf_spec in Hwf' as [Hnd Hlt].
    split; [|split; [|split]].
    + pose proof (wf_run_op (OpProcess gw s) db Hwf) as W. simpl in W.
      rewrite (process_pending_run gw s db ds md Hwf Hf Hne Et) in W. exact W.
    + exact Hf.
    + apply count_pending_after, Hnd.
    + reflexivity.
Qed.

(** ** Results of one [process_pending] call *)

Lemma process_pending_result (gw : Gateway) (s : nat) (db db' : Db) (log : list json)
    (c : bool) (p r : nat) :
  process_pending gw s db = (db', log, R_processed c p r) ->
  p = length (claim s db) /\ c = Nat.eqb r 0 /\ r = count_pending s db'.
Proof.
  intro H. unfold process_pending in H.
  destruct (find_set s db) as [ds|]; [|discriminate].
  destruct (claim s db) as [|x xs] eqn:Ec.
  - inversion H; subst. split; [reflexivity|]. split; [reflexivity|].
    pose proof (length_claim s db') as L. rewrite Ec in L. unfold BATCH_SIZE in L.
    destruct (count_pending s db'); [reflexivity | simpl in L; discriminate].
  - destruct (fetchTemplate gw (set_masterDiscountId ds)) as [m|[[md|]|]]; try discriminate.
    destruct (process_loop gw md _ _ (x :: xs) db [] 0) as [[db1 log1] [n|m]] eqn:El;
      [|discriminate].
    inversion H; subst. apply process_loop_count in El. simpl in El.
    split; [simpl; lia | split; reflexivity].
Qed.

(** C10: a [process_pending] call that does not fail at the batch level
    reports as processed exactly the number of [PENDING] items it claimed:
    each claimed item counts once, whether it ended [CREATED] or [FAILED]. *)
Theorem processed_equals_claimed (gw : Gateway) (s : nat) (db db' : Db) (log : list json)
    (c : bool) (p r : nat) :
  process_pending gw s db = (db', log, R_processed c p r) -> p = length (claim s db).
Proof. intro H. apply (process_pending_result gw s db db' log c p r H). Qed.

(** C5: with [BATCH_SIZE = 5], a set with 12 [PENDING] items is finished in
    three [process_pending] calls processing 5, 5 and 2 items and returning
    [complete = false], [false], [true] (whatever each creation returns);
    and every call reports [complete] exactly when the recomputed number of
    [PENDING] items of the set is 0. *)
Theorem twelve_pending_three_batches (gw1 gw2 gw3 : Gateway) (s : nat) (db : Db)
    (ds : DiscountSet) :
  wf db = true -> find_set s db = Some ds -> count_pending s db = 12 ->
  forallb (fun gw => is_template (fetchTemplate gw (set_masterDiscountId ds))) [gw1; gw2; gw3]
    = true ->
  (let '(db1, _, r1) := process_pending gw1 s db in
   let '(db2, _, r2) := process_pending gw2 s db1 in
   let '(_, _, r3) := process_pending gw3 s db2 in
   r1 = R_processed false 5 7 /\ r2 = R_processed false 5 2 /\ r3 = R_processed true 2 0) /\
  (forall gw s' db0 db0' log c p r,
     process_pending gw s' db0 = (db0', log, R_processed c p r) ->
     c = Nat.eqb r 0 /\ r = count_pending s' db0').
Proof.
  intros Hwf Hf Hc Ht. simpl in Ht. rewrite !andb_true_iff in Ht.
  destruct Ht as (T1 & T2 & T3 & _).
  split.
  - pose proof (batch_step gw1 s db ds Hwf Hf T1) as B1.
    destruct (process_pending gw1 s db) as [[db1 l1] r1].
    destruct B1 as (W1 & F1 & C1 & R1). rewrite Hc in C1, R1. simpl in C1.
    pose proof (batch_step gw2 s db1 ds W1 F1 T2) as B2.
    destruct (process_pending gw2 s db1) as [[db2 l2] r2].
    destruct B2 as (W2 & F2 & C2 & R2). rewrite C1 in C2, R2. simpl in C2.
    pose proof (batch_step gw3 s db2 ds W2 F2 T3) as B3.
    destruct (process_pending gw3 s db2) as [[db3 l3] r3].
    destruct B3 as (W3 & F3 & C3 & R3). rewrite C2 in C3, R3. simpl in C3.
    rewrite C1 in R1. rewrite C2 in R2. rewrite C3 in R3. subst. auto.
  - intros gw s' db0 db0' log c p r H.
    destruct (process_pending_result gw s' db0 db0' log c p r H) as (_ & H1 & H2). auto.
Qed.

(** C4: when [process_pending] has claimed at least one [PENDING] item
    and the template query throws or finds no discount, the call returns a
    single error, sends no creation request and leaves the store as it was,
    so no item changes status or error message. *)
Theorem template_failure_is_batch_error (gw : Gateway) (s : nat) (db : Db) (ds : DiscountSet) :
  find_set s db = Some ds -> claim s db <> [] ->
  template_unavailable (fetchTemplate gw (set_masterDiscountId ds)) = true ->
  exists e, process_pending gw s db = (db, [], R_error e).
Proof.
  intros Hf Hc Ht. unfold process_pending. rewrite Hf.
  destruct (claim s db) as [|x xs]; [congruence|].
  destruct (fetchTemplate gw (set_masterDiscountId ds)) as [m|[[md|]|]]; simpl in Ht;
    try discriminate; eexists; reflexivity.
Qed.

(** C8: when the template reference does not resolve at submission (the
    query throws, reports errors, or finds no discount), [create_discounts]
    returns an error and persists nothing: the store is unchanged. *)
Theorem unresolved_template_persists_nothing (gw : Gateway) (sh m n : string)
    (codes : list string) (db : Db) :
  validation_fails (validateTemplate gw (format_id m)) = true ->
  exists e, create_discounts gw sh m n codes db = (db, R_error e).
Proof.
  intro Hv. unfold create_discounts.
  destruct (validateTemplate gw (format_id m)) as [e|[|e es]|[[|]|]]; simpl in Hv;
    try discriminate; eexists; reflexivity.
Qed.

(** C6: [retry_failed] on a set turns exactly the [FAILED] rows of that
    set into [PENDING] rows with a null error message, all other fields
    kept; every other row ([CREATED], [PENDING], or of another set or of
    no set) is left as it was, in place, and the [DiscountSet] table is
    unchanged. *)
Theorem retry_failed_exact (s : nat) (db : Db) :
  let db' := fst (retry_failed s db) in
  discountSets db' = discountSets db /\
  length (discounts db') = length (discounts db) /\
  forall i d, nth_error (discounts db) i = Some d ->
    (discountSetId d = Some s /\ status d = FAILED ->
     nth_error (discounts db') i =
     Some (mkDiscount (id d) (shop d) (shopifyId d) (code d) (masterDiscountId d)
                      (discountSetId d) PENDING None)) /\
    (~ (discountSetId d = Some s /\ status d = FAILED) ->
     nth_error (discounts db') i = Some d).
Proof.
  simpl. split; [reflexivity|]. split; [apply length_map|].
  intros i d Hi. rewrite nth_error_map, Hi. simpl.
  split.
  - intro H. apply in_set_with_spec in H. rewrite H. reflexivity.
  - intro H. destruct (in_set_with s FAILED d) eqn:E; [|reflexivity].
    apply in_set_with_spec in E. contradiction.
Qed.

(** ** The creation requests of one [process_pending] call *)

Lemma process_pending_requests (gw : Gateway) (s : nat) (db db' : Db) (log : list json)
    (res0 : ActionResult) (ds : DiscountSet) (md : MasterDiscount) (j : json) :
  process_pending gw s db = (db', log, res0) -> find_set s db = Some ds ->
  fetchTemplate gw (set_masterDiscountId ds) = TF_ok (Some (Some md)) ->
  In j log -> exists c, discountInput md (buildItemSelection md) (buildCustomerContext md) c = Ok j.
Proof.
  intros H Hf Ht Hj. unfold process_pending in H. rewrite Hf in H.
  destruct (claim s db) as [|x xs]; [inversion H; subst; contradiction|].
  rewrite Ht in H.
  destruct (process_loop gw md _ _ (x :: xs) db [] 0) as [[db1 log1] out] eqn:El.
  assert (log1 = log) as <- by (destruct out; inversion H; reflexivity).
  destruct (process_loop_log gw md _ _ _ _ _ _ _ _ _ El j Hj) as [[]|Hc]. exact Hc.
Qed.

(** C1 (as the code does it): every creation request [process_pending]
    sends copies [usageLimit] (null when the template has none) and
    [appliesOncePerCustomer] from the master template; they are not forced
    to single use. *)
Theorem request_copies_usage_fields (gw : Gateway) (s : nat) (db db' : Db) (log : list json)
    (res0 : ActionResult) (ds : DiscountSet) (md : MasterDiscount) (j : json) :
  process_pending gw s db = (db', log, res0) -> find_set s db = Some ds ->
  fetchTemplate gw (set_masterDiscountId ds) = TF_ok (Some (Some md)) -> In j log ->
  jget "usageLimit" j = Some (opt_int_json (usageLimit md)) /\
  jget "appliesOncePerCustomer" j = Some (JBool (appliesOncePerCustomer md)).
Proof.
  intros H Hf Ht Hj.
  destruct (process_pending_requests gw s db db' log res0 ds md j H Hf Ht Hj) as [c Hc].
  unfold discountInput in Hc. destruct (buildValue md); inversion Hc; subst.
  split; reflexivity.
Qed.

(** C1 fails: a template with usage limit 5 that may be used more than
    once per customer yields creation requests with [usageLimit: 5] and
    [appliesOncePerCustomer: false]. *)
Lemma usage_limit_not_forced :
  ~ (forall j, In j (snd (fst (process_pending (gw_ok (template_pct (10 # 1) (Some 5%Z) false)) 0 db12))) ->
       jget "usageLimit" j = Some (JNum (inject_Z 1)) /\
       jget "appliesOncePerCustomer" j = Some (JBool true)).
Proof.
  intro H.
  destruct (snd (fst (process_pending (gw_ok (template_pct (10 # 1) (Some 5%Z) false)) 0 db12)))
    as [|j rest] eqn:E.
  - vm_compute in E. discriminate.
  - destruct (H j (or_introl eq_refl)) as [H1 _].
    vm_compute in E. injection E as Ej _. subst j. vm_compute in H1. discriminate.
Qed.

(** C9 (divergence): for a template worth 10 percent on all items, every
    creation request carries [customerGets.value = {percentage: 10}] and
    [customerGets.items = {all: "ALL"}], a string where the item selection
    flag is a boolean ([{all: true}]). *)
Theorem all_items_request_shape (gw : Gateway) (s : nat) (db db' : Db) (log : list json)
    (res0 : ActionResult) (ds : DiscountSet) (md : MasterDiscount) (j : json) :
  process_pending gw s db = (db', log, res0) -> find_set s db = Some ds ->
  fetchTemplate gw (set_masterDiscountId ds) = TF_ok (Some (Some md)) ->
  percentage (value (customerGets md)) = Some (10 # 1) ->
  allItems (items (customerGets md)) = Some true ->
  In j log ->
  jget "customerGets" j =
    Some (JObj [("value", JObj [("percentage", JNum (10 # 1))]);
                ("items", JObj [("all", JStr "ALL")])]) /\
  jget "customerGets" j <>
    Some (JObj [("value", JObj [("percentage", JNum (10 # 1))]);
                ("items", JObj [("all", JBool true)])]).
Proof.
  intros H Hf Ht Hp Ha Hj.
  destruct (process_pending_requests gw s db db' log res0 ds md j H Hf Ht Hj) as [c Hc].
  unfold discountInput, buildValue, buildItemSelection in Hc.
  rewrite Hp, Ha in Hc. simpl in Hc. inversion Hc; subst.
  split; [reflexivity | discriminate].
Qed.

(** ** Per-item handling in [process_pending] *)

Lemma item_update_outcome (gw : Gateway) (md : MasterDiscount) (r : Discount) :
  item_outcome gw md r
    (item_update gw md (buildItemSelection md) (buildCustomerContext md) r r).
Proof.
  unfold item_update, try_update.
  destruct (discountInput md (buildItemSelection md) (buildCustomerContext md) (code r))
    as [input|m] eqn:Ein; simpl; [|eapply out_not_built; eassumption].
  destruct (createCode gw input) as [m|ue node] eqn:Ec; [eapply out_thrown; eassumption|].
  destruct (has_user_errors ue) eqn:Hu.
  - destruct ue as [[|e es]|]; simpl in Hu; try discriminate.
    eapply out_rejected; [eassumption | eassumption | discriminate].
  - destruct node as [nid|].
    + eapply out_created; eassumption.
    + eapply out_unexpected; eassumption.
Qed.

(** C3 (as amended): in a [process_pending] call that has claimed items
    and fetched its template, the items are handled one after the other in
    claim order and independently: the creation request of every claimed
    item whose request can be built is sent, the call returns a normal
    result, and each claimed item's row becomes [FAILED] with the
    ["field: message"] texts of the user errors joined by [", "] when the
    gateway rejects it, [CREATED] with the returned id on success, [FAILED]
    with ["Unexpected API response"] when the answer has neither, and
    [FAILED] with the thrown error's message (["Unknown error"] when that
    message is empty) when building or sending the request throws. *)
Theorem batch_items_independent (gw : Gateway) (s : nat) (db : Db) (ds : DiscountSet)
    (md : MasterDiscount) :
  wf db = true -> find_set s db = Some ds -> claim s db <> [] ->
  fetchTemplate gw (set_masterDiscountId ds) = TF_ok (Some (Some md)) ->
  let '(db', log, res0) := process_pending gw s db in
  log = requests_for md (claim s db) /\
  (exists c rem, res0 = R_processed c (length (claim s db)) rem) /\
  forall r, In r (claim s db) -> exists d', In d' (discounts db') /\ item_outcome gw md r d'.
Proof.
  intros Hwf Hf Hc Ht.
  rewrite (process_pending_run gw s db ds md Hwf Hf Hc Ht).
  pose proof Hwf as Hwf'. apply wf_spec in Hwf' as [Hnd _].
  split; [|split].
  - unfold requests_for. rewrite flat_map_concat_map. f_equal. apply map_ext.
    intro r. unfold sent_for, try_update.
    destruct (discountInput _ _ _ (code r)); reflexivity.
  - eexists; eexists; reflexivity.
  - intros r Hr. simpl.
    exists (item_update gw md (buildItemSelection md) (buildCustomerContext md) r r).
    split; [|apply item_update_outcome].
    assert (Hrd : In r (discounts db)) by apply (claim_spec s db r Hr).
    destruct (apply_claimed_row gw md (buildItemSelection md) (buildCustomerContext md) s db r Hnd Hrd)
      as [[Hn _]|[_ E]].
    + exfalso. apply Hn, in_map, Hr.
    + rewrite <- E. apply in_map, Hrd.
Qed.

(** C3 fails as stated: when the creation call throws an [Error] whose
    message is empty, the item is marked [FAILED] with ["Unknown error"],
    not with the error's message. *)
Lemma thrown_empty_message_replaced :
  ~ (exists d, In d (discounts (fst (fst (process_pending (gw_throw_empty (template_pct (10 # 1) None false)) 0 db12))))
               /\ id d = 1 /\ status d = FAILED /\ errorMessage d = Some "").
Proof.
  intros [d [Hd [Hid [_ He]]]]. vm_compute in Hd.
  repeat (destruct Hd as [<-|Hd]; [vm_compute in Hid, He; try discriminate|]); contradiction.
Qed.

(** ** Witnesses: the theorems applied to concrete stores *)

Lemma status_invariant_preserved_witness :
  wf db_mixed = true /\ store_inv db_mixed /\ store_inv (run_op (OpRetry 0) db_mixed).
Proof.
  assert (Hw : wf db_mixed = true) by (vm_compute; reflexivity).
  assert (Hi : store_inv db_mixed) by (apply store_inv_of_b; vm_compute; reflexivity).
  split; [exact Hw|]. split; [exact Hi|].
  apply (status_invariant_preserved (OpRetry 0) db_mixed Hw Hi).
Defined.

Lemma settled_rows_never_reprocessed_witness :
  let d := mkDiscount 2 "shop" (Some "gid://shopify/DiscountCodeNode/7") "A1"
                      "gid://shopify/DiscountCodeNode/42" (Some 0) CREATED None in
  let ops := [OpProcess g12 0; OpRetry 1; OpProcess g12 0] in
  wf db_mixed = true /\ In d (discounts db_mixed) /\ status d <> PENDING /\
  no_retry_on (discountSetId d) ops = true /\
  In d (discounts (run_ops ops db_mixed)) /\
  (forall s r, In r (claim s (run_ops ops db_mixed)) -> id r <> id d).
Proof.
  intros d ops.
  split; [vm_compute; reflexivity|]. split; [simpl; left; reflexivity|].
  split; [discriminate|]. split; [vm_compute; reflexivity|].
  apply (settled_rows_never_reprocessed ops db_mixed d).
  - vm_compute; reflexivity.
  - simpl; left; reflexivity.
  - discriminate.
  - vm_compute; reflexivity.
Defined.

Lemma processed_equals_claimed_witness :
  run12 = (fst (fst run12), snd (fst run12), R_processed false 5 7) /\
  5 = length (claim 0 db12).
Proof.
  split; [vm_compute; reflexivity|].
  apply (processed_equals_claimed g12 0 db12 (fst (fst run12)) (snd (fst run12)) false 5 7).
  vm_compute; reflexivity.
Defined.

Lemma twelve_pending_three_batches_witness :
  wf db12 = true /\ find_set 0 db12 = Some set12 /\ count_pending 0 db12 = 12 /\
  forallb (fun gw => is_template (fetchTemplate gw (set_masterDiscountId set12))) [g12; g12; g12]
    = true /\
  (let '(db1, _, r1) := process_pending g12 0 db12 in
   let '(db2, _, r2) := process_pending g12 0 db1 in
   let '(_, _, r3) := process_pending g12 0 db2 in
   r1 = R_processed false 5 7 /\ r2 = R_processed false 5 2 /\ r3 = R_processed true 2 0) /\
  (forall gw s' db0 db0' log c p r,
     process_pending gw s' db0 = (db0', log, R_processed c p r) ->
     c = Nat.eqb r 0 /\ r = count_pending s' db0').
Proof.
  split; [vm_compute; reflexivity|]. split; [vm_compute; reflexivity|].
  split; [vm_compute; reflexivity|]. split; [vm_compute; reflexivity|].
  apply (twelve_pending_three_batches g12 g12 g12 0 db12 set12);
    vm_compute; reflexivity.
Defined.

Lemma template_failure_is_batch_error_witness :
  find_set 0 db12 = Some set12 /\ claim 0 db12 <> [] /\
  template_unavailable (fetchTemplate gw_gone (set_masterDiscountId set12)) = true /\
  exists e, process_pending gw_gone 0 db12 = (db12, [], R_error e).
Proof.
  split; [vm_compute; reflexivity|]. split; [vm_compute; discriminate|].
  split; [vm_compute; reflexivity|].
  apply (template_failure_is_batch_error gw_gone 0 db12 set12).
  - vm_compute; reflexivity.
  - vm_compute; discriminate.
  - vm_compute; reflexivity.
Defined.

Lemma unresolved_template_persists_nothing_witness :
  validation_fails (validateTemplate gw_gone (format_id "42")) = true /\
  exists e, create_discounts gw_gone "shop" "42" "Spring" ["S1"; "S2"] db_mixed = (db_mixed, R_error e).
Proof.
  split; [vm_compute; reflexivity|].
  apply (unresolved_template_persists_nothing gw_gone "shop" "42" "Spring" ["S1"; "S2"] db_mixed).
  vm_compute; reflexivity.
Defined.

Lemma retry_failed_exact_witness :
  nth_error (discounts db_mixed) 1 =
    Some (mkDiscount 3 "shop" None "A2" "gid://shopify/DiscountCodeNode/42" (Some 0) FAILED
                     (Some "code: Code must be unique")) /\
  nth_error (discounts (fst (retry_failed 0 db_mixed))) 1 =
    Some (mkDiscount 3 "shop" None "A2" "gid://shopify/DiscountCodeNode/42" (Some 0) PENDING None).
Proof.
  split; [reflexivity|].
  destruct (retry_failed_exact 0 db_mixed) as (_ & _ & H).
  apply (proj1 (H 1 _ eq_refl)). split; reflexivity.
Defined.

Lemma request_copies_usage_fields_witness :
  run12 = (fst (fst run12), snd (fst run12), snd run12) /\
  find_set 0 db12 = Some set12 /\
  fetchTemplate g12 (set_masterDiscountId set12) =
    TF_ok (Some (Some (template_pct (10 # 1) None false))) /\
  In (hd JNull (snd (fst run12))) (snd (fst run12)) /\
  jget "usageLimit" (hd JNull (snd (fst run12))) = Some JNull /\
  jget "appliesOncePerCustomer" (hd JNull (snd (fst run12))) = Some (JBool false).
Proof.
  split; [reflexivity|]. split; [vm_compute; reflexivity|]. split; [reflexivity|].
  split; [vm_compute; left; reflexivity|].
  apply (request_copies_usage_fields g12 0 db12 (fst (fst run12)) (snd (fst run12)) (snd run12)
           set12 (template_pct (10 # 1) None false) (hd JNull (snd (fst run12)))).
  - reflexivity.
  - vm_compute; reflexivity.
  - reflexivity.
  - vm_compute; left; reflexivity.
Defined.

Lemma all_items_request_shape_witness :
  In (hd JNull (snd (fst run12))) (snd (fst run12)) /\
  jget "customerGets" (hd JNull (snd (fst run12))) =
    Some (JObj [("value", JObj [("percentage", JNum (10 # 1))]);
                ("items", JObj [("all", JStr "ALL")])]) /\
  jget "customerGets" (hd JNull (snd (fst run12))) <>
    Some (JObj [("value", JObj [("percentage", JNum (10 # 1))]);
                ("items", JObj [("all", JBool true)])]).
Proof.
  split; [vm_compute; left; reflexivity|].
  apply (all_items_request_shape g12 0 db12 (fst (fst run12)) (snd (fst run12)) (snd run12)
           set12 (template_pct (10 # 1) None false) (hd JNull (snd (fst run12)))).
  - reflexivity.
  - vm_compute; reflexivity.
  - reflexivity.
  - reflexivity.
  - reflexivity.
  - vm_compute; left; reflexivity.
Defined.

Lemma batch_items_independent_witness :
  wf db12 = true /\ find_set 0 db12 = Some set12 /\ claim 0 db12 <> [] /\
  let '(db', log, res0) := process_pending g12 0 db12 in
  log = requests_for (template_pct (10 # 1) None false) (claim 0 db12) /\
  (exists c rem, res0 = R_processed c (length (claim 0 db12)) rem) /\
  forall r, In r (claim 0 db12) ->
    exists d', In d' (discounts db') /\ item_outcome g12 (template_pct (10 # 1) None false) r d'.
Proof.
  split; [vm_compute; reflexivity|]. split; [vm_compute; reflexivity|].
  split; [vm_compute; discriminate|].
  apply (batch_items_independent g12 0 db12 set12 (template_pct (10 # 1) None false)).
  - vm_compute; reflexivity.
  - vm_compute; reflexivity.
  - vm_compute; discriminate.
  - reflexivity.
Defined.

(** ** CSV parsing *)

Lemma split_sep_nonnil (s : string) : split_sep s <> [].
Proof.
  destruct s as [|c s']; simpl; [discriminate|].
  destruct (is_sep c); [discriminate|]. destruct (split_sep s'); discriminate.
Qed.

Lemma split_sep_fields (s p : string) :
  In p (split_sep s) -> str_forallb (fun ch => negb (is_sep ch)) p = true.
Proof.
  revert p. induction s as [|c s' IH]; intros p Hp; simpl in Hp.
  - destruct Hp as [<-|[]]; reflexivity.
  - destruct (is_sep c) eqn:Ec.
    + destruct Hp as [<-|Hp]; [reflexivity | auto].
    + destruct (split_sep s') as [|q qs] eqn:Es.
      * destruct Hp as [<-|[]]; simpl; rewrite Ec; reflexivity.
      * destruct Hp as [<-|Hp].
        -- simpl. rewrite Ec. apply IH. left; reflexivity.
        -- apply IH. right; exact Hp.
Qed.

Lemma split_sep_app_newline (a b : string) :
  split_sep (a ++ String "010"%char b) = (split_sep a ++ split_sep b)%list.
Proof.
  induction a as [|c a' IH]; simpl; [reflexivity|].
  rewrite IH. destruct (is_sep c); [reflexivity|].
  destruct (split_sep a') as [|p ps] eqn:E; [exfalso; exact (split_sep_nonnil a' E) | reflexivity].
Qed.

Lemma split_sep_commas (s : string) : split_sep (commas_to_newlines s) = split_sep s.
Proof.
  induction s as [|c s' IH]; simpl; [reflexivity|]. rewrite IH.
  destruct (Ascii.eqb c ","%char) eqn:Ec.
  - apply Ascii.eqb_eq in Ec. subst. reflexivity.
  - reflexivity.
Qed.

Lemma str_forallb_trim_start (f : ascii -> bool) (s : string) :
  str_forallb f s = true -> str_forallb f (trim_start s) = true.
Proof.
  induction s as [|c s' IH]; simpl; [auto|].
  intro H. destruct (js_whitespace c); [|exact H].
  apply andb_true_iff in H as [_ H]. auto.
Qed.

Lemma str_forallb_trim_end (f : ascii -> bool) (s : string) :
  str_forallb f s = true -> str_forallb f (trim_end s) = true.
Proof.
  induction s as [|c s' IH]; simpl; [auto|].
  intro H. apply andb_true_iff in H as [Hc H]. specialize (IH H).
  destruct (trim_end s') as [|d r] eqn:E.
  - destruct (js_whitespace c); simpl; rewrite ?Hc; reflexivity.
  - simpl. rewrite Hc. exact IH.
Qed.

Lemma trim_end_idem (s : string) : trim_end (trim_end s) = trim_end s.
Proof.
  induction s as [|c s' IH]; simpl; [reflexivity|].
  destruct (trim_end s') as [|d r] eqn:E.
  - destruct (js_whitespace c) eqn:Ew; simpl; [reflexivity|]. rewrite Ew. reflexivity.
  - change (trim_end (String c (String d r))) with
      (match trim_end (String d r) with
       | EmptyString => if js_whitespace c then EmptyString else String c EmptyString
       | r0 => String c r0 end).
    rewrite IH. reflexivity.
Qed.

Lemma trim_end_head (c : ascii) (s : string) :
  js_whitespace c = false -> exists r, trim_end (String c s) = String c r.
Proof.
  intro Hc. simpl. destruct (trim_end s) as [|d r]; [rewrite Hc|]; eexists; reflexivity.
Qed.

Lemma trim_start_head (s : string) :
  trim_start s = EmptyString \/ exists c r, trim_start s = String c r /\ js_whitespace c = false.
Proof.
  induction s as [|c s' IH]; simpl; [left; reflexivity|].
  destruct (js_whitespace c) eqn:Ec; [exact IH|]. right. exists c, s'. auto.
Qed.

Lemma trim_idem (s : string) : trim (trim s) = trim s.
Proof.
  unfold trim. destruct (trim_start_head s) as [E|[c [r [E Hc]]]]; rewrite E.
  - reflexivity.
  - destruct (trim_end_head c r Hc) as [r' E']. rewrite E'. simpl trim_start. rewrite Hc.
    rewrite <- E'. apply trim_end_idem.
Qed.

Lemma dedupe_from_shift (x : string) (self l : list string) (i : nat) :
  dedupe_from (x :: self) l (S i) = filter (fun y => negb (String.eqb y x)) (dedupe_from self l i).
Proof.
  revert i. induction l as [|y l' IH]; intro i; simpl; [reflexivity|].
  destruct (String.eqb y x) eqn:Eyx; simpl.
  - apply String.eqb_eq in Eyx. subst. rewrite IH.
    destruct (opt_nat_eqb (index_of x self) i); simpl; rewrite ?String.eqb_refl; reflexivity.
  - assert (Hopt : opt_nat_eqb (match index_of y self with Some j => Some (S j) | None => None end) (S i)
                   = opt_nat_eqb (index_of y self) i)
      by (destruct (index_of y self); reflexivity).
    rewrite Hopt, IH. destruct (opt_nat_eqb (index_of y self) i); simpl; rewrite ?Eyx; reflexivity.
Qed.

Lemma dedupe_cons (x : string) (xs : list string) :
  dedupe (x :: xs) = x :: filter (fun y => negb (String.eqb y x)) (dedupe xs).
Proof.
  unfold dedupe at 1. simpl. rewrite String.eqb_refl. simpl. rewrite dedupe_from_shift. reflexivity.
Qed.

Lemma dedupe_In (l : list string) (y : string) : In y (dedupe l) <-> In y l.
Proof.
  induction l as [|x xs IH]; [simpl; tauto|].
  rewrite dedupe_cons. simpl. rewrite filter_In, IH.
  destruct (String.eqb_spec y x); subst; simpl; intuition congruence.
Qed.

Lemma dedupe_NoDup (l : list string) : NoDup (dedupe l).
Proof.
  induction l as [|x xs IH]; [constructor|].
  rewrite dedupe_cons. constructor.
  - rewrite filter_In. rewrite String.eqb_refl. simpl. intros [_ H]; discriminate.
  - apply NoDup_filter, IH.
Qed.

Lemma filter_all_true {A} (l : list A) : filter (fun _ => true) l = l.
Proof. induction l as [|x xs IH]; simpl; congruence. Qed.

Lemma filter_filter_and {A} (f g : A -> bool) (l : list A) :
  filter f (filter g l) = filter (fun x => g x && f x) l.
Proof.
  induction l as [|x xs IH]; simpl; [reflexivity|].
  destruct (g x); simpl; [destruct (f x); simpl; congruence | exact IH].
Qed.

Lemma existsb_without (x y : string) (l : list string) :
  String.eqb y x = false ->
  existsb (String.eqb y) (filter (fun z => negb (String.eqb z x)) l) = existsb (String.eqb y) l.
Proof.
  intro Hyx. induction l as [|z zs IH]; simpl; [reflexivity|].
  destruct (String.eqb_spec z x) as [->|Hzx]; simpl.
  - rewrite Hyx. exact IH.
  - rewrite IH. reflexivity.
Qed.

Lemma dedupe_app (a b : list string) :
  dedupe (a ++ b) =
  (dedupe a ++ filter (fun c => negb (existsb (String.eqb c) (dedupe a))) (dedupe b))%list.
Proof.
  induction a as [|x xs IH].
  - change (dedupe []) with (@nil string). simpl. rewrite filter_all_true. reflexivity.
  - rewrite <- app_comm_cons, !dedupe_cons, IH. simpl. f_equal.
    rewrite filter_app, filter_filter_and. f_equal.
    apply filter_ext. intro y. destruct (String.eqb y x) eqn:Eyx; simpl.
    + rewrite andb_false_r. reflexivity.
    + rewrite existsb_without by exact Eyx. apply andb_true_r.
Qed.

(** X1: The codes parsed from a file have no duplicates; each is non-empty,
    has no white space at either end and contains no line break or comma. *)
Theorem parseCodes_wellformed (content : string) :
  NoDup (parseCodes content) /\
  forall c, In c (parseCodes content) ->
    c <> "" /\ trim c = c /\ str_forallb (fun ch => negb (is_sep ch)) c = true.
Proof.
  unfold parseCodes. split; [apply dedupe_NoDup|].
  intros c Hc. apply dedupe_In, filter_In in Hc as [Hc Hne].
  apply in_map_iff in Hc as [f [<- Hf]].
  split; [intro E; rewrite E in Hne; discriminate|]. split; [apply trim_idem|].
  unfold trim. apply str_forallb_trim_end, str_forallb_trim_start.
  exact (split_sep_fields content f Hf).
Qed.

(** X2: A string is a parsed code exactly when it is non-empty and is the
    trimmed text of some field between line breaks and commas. *)
Theorem parseCodes_members (content c : string) :
  In c (parseCodes content) <->
  c <> "" /\ exists field, In field (split_sep content) /\ trim field = c.
Proof.
  unfold parseCodes. rewrite dedupe_In, filter_In, in_map_iff.
  split.
  - intros [[f [Ef Hf]] Hne]. split; [intro E; rewrite E in Hne; discriminate|]. eauto.
  - intros [Hne [f [Hf Ef]]]. split; [eauto|].
    destruct (String.eqb_spec c ""); [contradiction | reflexivity].
Qed.

(** X3: Commas and line breaks are interchangeable: writing every comma of the
    file as a line break gives the same codes in the same order. *)
Theorem parseCodes_commas_as_lines (content : string) :
  parseCodes (commas_to_newlines content) = parseCodes content.
Proof. unfold parseCodes. rewrite split_sep_commas. reflexivity. Qed.

(** X4: Appending lines to a file keeps the codes already found, in their
    order, and adds the new codes of the appended part that are not among
    them, in the order of their first appearance. *)
Theorem parseCodes_append_lines (a b : string) :
  parseCodes (a ++ String "010"%char b) =
  (parseCodes a ++ filter (fun c => negb (existsb (String.eqb c) (parseCodes a))) (parseCodes b))%list.
Proof.
  unfold parseCodes. rewrite split_sep_app_newline, map_app, filter_app. apply dedupe_app.
Qed.

(** ** Submitting parsed codes *)

Lemma nodup_str_true (l : list string) : NoDup l -> nodup_str l = true.
Proof.
  induction l as [|x xs IH]; simpl; [reflexivity|].
  intro H. inversion H as [|? ? Hx Hnd]; subst. rewrite IH by exact Hnd. rewrite andb_true_r.
  apply negb_true_iff. destruct (existsb (String.eqb x) xs) eqn:E; [|reflexivity].
  apply existsb_exists in E as [y [Hy Exy]]. apply String.eqb_eq in Exy. subst. contradiction.
Qed.

Lemma new_rows_codes (sh fid : string) (sid n : nat) (codes : list string) :
  map code (new_rows sh fid sid n codes) = codes.
Proof.
  revert n. induction codes as [|c cs IH]; intros n; simpl; [reflexivity|]. rewrite IH. reflexivity.
Qed.

Lemma new_rows_shop (sh fid : string) (sid n : nat) (codes : list string) (d : Discount) :
  In d (new_rows sh fid sid n codes) -> shop d = sh.
Proof.
  revert n. induction codes as [|c cs IH]; intros n; simpl; [tauto|].
  intros [<-|H]; [reflexivity | exact (IH (S n) H)].
Qed.

(** X5: Codes read from a file and posted by the form are all queued: when the
    template exists and none of the codes is already used in the shop, the
    submission creates the set and one [PENDING] row per code, in the
    file's order. *)
Theorem parsed_codes_all_queued (gw : Gateway) (sh m n content : string) (codes : list string)
    (db : Db) :
  handleGenerateDiscounts m n (parseCodes content) = Some (m, n, codes) ->
  validateTemplate gw (format_id m) = VF_ok (Some true) ->
  forallb (fun c => negb (existsb (fun d => String.eqb (shop d) sh && String.eqb (code d) c)
                                  (discounts db))) codes = true ->
  exists rows,
    create_discounts gw sh m n codes db =
      (mkDb (discountSets db ++ [mkDiscountSet (next_id db) n sh (format_id m)])
            (discounts db ++ rows) (S (next_id db) + length codes),
       R_created (next_id db) (length codes)) /\
    map code rows = codes /\
    forall r, In r rows -> status r = PENDING /\ discountSetId r = Some (next_id db) /\ shop r = sh.
Proof.
  intros Hg Hv Hfree. unfold handleGenerateDiscounts in Hg.
  destruct (_ || _ || _); [discriminate|]. injection Hg as <-.
  exists (new_rows sh (format_id m) (next_id db) (S (next_id db)) (parseCodes content)).
  split; [|split].
  - unfold create_discounts. rewrite Hv. unfold createMany. simpl.
    rewrite nodup_str_true by apply dedupe_NoDup.
    rewrite Hfree. reflexivity.
  - apply new_rows_codes.
  - intros r Hr. destruct (new_rows_spec _ _ _ _ _ r Hr) as (Hs & _ & _ & Hset & _).
    split; [exact Hs|]. split; [exact Hset|]. exact (new_rows_shop _ _ _ _ _ r Hr).
Qed.

(** ** Deleting *)

Lemma in_set_spec (s : nat) (d : Discount) : in_set s d = true <-> discountSetId d = Some s.
Proof.
  unfold in_set. destruct (discountSetId d) as [s'|].
  - rewrite Nat.eqb_eq. split; congruence.
  - split; discriminate.
Qed.

Lemma remote_id_to_delete_spec (d : Discount) (x : string) :
  remote_id_to_delete d = Some x <-> status d = CREATED /\ shopifyId d = Some x /\ x <> "".
Proof.
  unfold remote_id_to_delete. destruct (shopifyId d) as [y|].
  - destruct (String.eqb_spec y "") as [->|Hy].
    + split; [discriminate | intros (_ & E & Hx); injection E as <-; contradiction].
    + destruct (status d); simpl; split; try discriminate;
        try (intros (E & _); discriminate);
        [intro E; injection E as <-; auto | intros (_ & E & _); congruence].
  - split; [discriminate | intros (_ & E & _); discriminate].
Qed.

Lemma remote_ids_to_delete_In (ds : list Discount) (x : string) :
  In x (remote_ids_to_delete ds) <->
  exists d, In d ds /\ status d = CREATED /\ shopifyId d = Some x /\ x <> "".
Proof.
  unfold remote_ids_to_delete. rewrite in_flat_map. split.
  - intros [d [Hd Hx]]. destruct (remote_id_to_delete d) as [y|] eqn:E; [|destruct Hx].
    destruct Hx as [<-|[]]. apply remote_id_to_delete_spec in E. exists d. auto.
  - intros [d [Hd H]]. apply remote_id_to_delete_spec in H. exists d. rewrite H. simpl. auto.
Qed.

Lemma find_filter_negb {A} (f : A -> bool) (l : list A) :
  find f (filter (fun x => negb (f x)) l) = None.
Proof.
  induction l as [|x xs IH]; simpl; [reflexivity|].
  destruct (f x) eqn:E; simpl; [exact IH | rewrite E; exact IH].
Qed.

Lemma find_unique_id (db : Db) (d : Discount) :
  wf db = true -> In d (discounts db) ->
  find (fun x => Nat.eqb (id x) (id d)) (discounts db) = Some d.
Proof.
  intros Hwf Hd. apply wf_spec in Hwf as [Hnd _].
  destruct (find (fun x => Nat.eqb (id x) (id d)) (discounts db)) as [x|] eqn:E.
  - apply find_some in E as [Hx Ex]. apply Nat.eqb_eq in Ex. f_equal.
    exact (nodup_id_eq _ _ _ Hnd Hx Hd Ex).
  - exfalso. pose proof (find_none _ _ E d Hd) as F. cbn beta in F. rewrite Nat.eqb_refl in F. discriminate.
Qed.

Lemma delete_set_db (s : nat) (db : Db) (ds : DiscountSet) :
  find_set s db = Some ds ->
  fst (fst (delete_discount_set s db)) =
  mkDb (filter (fun t => negb (Nat.eqb (set_id t) s)) (discountSets db))
       (filter (fun d => negb (in_set s d)) (discounts db)) (next_id db).
Proof. intro Hf. unfold delete_discount_set. rewrite Hf. reflexivity. Qed.

Lemma find_set_after_delete (s : nat) (db : Db) (ds : DiscountSet) :
  find_set s db = Some ds -> find_set s (fst (fst (delete_discount_set s db))) = None.
Proof.
  intro Hf. rewrite (delete_set_db s db ds Hf). unfold find_set. simpl.
  apply (find_filter_negb (fun t => Nat.eqb (set_id t) s)).
Qed.

(** X6: Deleting an existing set deletes the Shopify code of each of its
    [CREATED] rows that has a remote id, then removes the set and all its
    rows, and nothing else; afterwards processing that set fails with
    "Discount set not found" and leaves the store as it is. *)
Theorem delete_discount_set_removes_set (s : nat) (db : Db) (ds : DiscountSet) :
  find_set s db = Some ds ->
  let '(db', sent, r) := delete_discount_set s db in
  r = DelSuccess "Discount set deleted successfully" /\
  (forall x, In x sent <->
     exists d, In d (discounts db) /\ discountSetId d = Some s /\ status d = CREATED /\
               shopifyId d = Some x /\ x <> "") /\
  (forall d, In d (discounts db') <-> In d (discounts db) /\ discountSetId d <> Some s) /\
  (forall t, In t (discountSets db') <-> In t (discountSets db) /\ set_id t <> s) /\
  next_id db' = next_id db /\
  (forall gw, process_pending gw s db' = (db', [], R_error "Discount set not found")).
Proof.
  intro Hf. pose proof (find_set_after_delete s db ds Hf) as Hnone.
  pose proof (delete_set_db s db ds Hf) as Hdb.
  destruct (delete_discount_set s db) as [[db' sent] r] eqn:E. simpl in Hdb, Hnone.
  unfold delete_discount_set in E. rewrite Hf in E. injection E as Edb Esent Er.
  split; [symmetry; exact Er|]. split; [|split; [|split; [|split]]].
  - intro x. rewrite <- Esent, remote_ids_to_delete_In. split.
    + intros [d [Hd H]]. apply filter_In in Hd as [Hd Hs]. apply in_set_spec in Hs. exists d. tauto.
    + intros [d (Hd & Hs & H)]. exists d. split; [|exact H].
      apply filter_In. split; [exact Hd | apply in_set_spec, Hs].
  - intro d. rewrite Hdb. simpl. rewrite filter_In, negb_true_iff.
    split; intros [Hd Hs]; split; auto.
    + intro Hin. apply in_set_spec in Hin. congruence.
    + destruct (in_set s d) eqn:Ei; [apply in_set_spec in Ei; contradiction | reflexivity].
  - intro t. rewrite Hdb. simpl. rewrite filter_In, negb_true_iff, Nat.eqb_neq. tauto.
  - rewrite Hdb. reflexivity.
  - intro gw. unfold process_pending. rewrite Hnone. reflexivity.
Qed.

(** X7: Deleting a record that does not exist changes nothing in the store and
    returns the database's error; for a single discount no Shopify request
    is sent either. *)
Theorem delete_missing_records (s i : nat) (db : Db) :
  find_set s db = None ->
  existsb (fun d => Nat.eqb (id d) i) (discounts db) = false ->
  fst (fst (delete_discount_set s db)) = db /\
  snd (delete_discount_set s db) = DelError "Record to delete does not exist." /\
  delete_single_discount i db = (db, [], DelError "Record to delete does not exist.").
Proof.
  intros Hf Hi. unfold delete_discount_set. rewrite Hf. split; [reflexivity|]. split; [reflexivity|].
  unfold delete_single_discount.
  destruct (find (fun d => Nat.eqb (id d) i) (discounts db)) as [d|] eqn:E; [|reflexivity].
  apply find_some in E as [Hd Ed]. exfalso.
  assert (Hx : existsb (fun d => Nat.eqb (id d) i) (discounts db) = true)
    by (apply existsb_exists; exists d; auto).
  congruence.
Qed.

(** X8: Deleting one discount of a well-formed store removes exactly that row,
    keeps the sets, and deletes its Shopify code only when the row is
    [CREATED] with a remote id. *)
Theorem delete_single_discount_exact (db : Db) (d : Discount) :
  wf db = true -> In d (discounts db) ->
  let '(db', sent, r) := delete_single_discount (id d) db in
  r = DelSuccess "Discount deleted successfully" /\
  (forall x, In x (discounts db') <-> In x (discounts db) /\ x <> d) /\
  discountSets db' = discountSets db /\ next_id db' = next_id db /\
  (forall x, In x sent <-> status d = CREATED /\ shopifyId d = Some x /\ x <> "") /\
  length sent <= 1.
Proof.
  intros Hwf Hd. pose proof Hwf as Hw. apply wf_spec in Hw as [Hnd _].
  unfold delete_single_discount. rewrite (find_unique_id db d Hwf Hd).
  split; [reflexivity|]. split; [|split; [reflexivity|split; [reflexivity|split]]].
  - intro x. simpl. rewrite filter_In, negb_true_iff, Nat.eqb_neq. split.
    + intros [Hx Hne]. split; [exact Hx | intro E; subst; contradiction].
    + intros [Hx Hne]. split; [exact Hx|]. intro E. exact (Hne (nodup_id_eq _ _ _ Hnd Hx Hd E)).
  - intro x. rewrite remote_ids_to_delete_In. split.
    + intros [d' [[<-|[]] H]]. exact H.
    + intro H. exists d. split; [left; reflexivity | exact H].
  - unfold remote_ids_to_delete. simpl. destruct (remote_id_to_delete d); simpl; lia.
Qed.

Lemma existsb_filter {A} (f g : A -> bool) (l : list A) :
  existsb f (filter g l) = existsb (fun x => g x && f x) l.
Proof.
  induction l as [|x xs IH]; simpl; [reflexivity|].
  destruct (g x); simpl; [rewrite IH; reflexivity | exact IH].
Qed.

Lemma wf_filter_discounts (db : Db) (keep : Discount -> bool) :
  wf db = true -> wf (mkDb (discountSets db) (filter keep (discounts db)) (next_id db)) = true.
Proof.
  intro Hwf. apply wf_spec in Hwf as [Hnd Hlt]. apply wf_spec. simpl. split.
  - apply nodup_map_filter, Hnd.
  - intros d Hd. apply filter_In in Hd as [Hd _]. auto.
Qed.

(** X9: Both deletions keep the store well-formed (distinct row ids below the
    id counter) and keep the status invariant of every row. *)
Theorem deletes_keep_invariants (db : Db) :
  wf db = true -> store_inv db ->
  (forall s, wf (fst (fst (delete_discount_set s db))) = true /\
             store_inv (fst (fst (delete_discount_set s db)))) /\
  (forall i, wf (fst (fst (delete_single_discount i db))) = true /\
             store_inv (fst (fst (delete_single_discount i db)))).
Proof.
  intros Hwf Hinv. split; intro k.
  - unfold delete_discount_set. destruct (find_set k db) as [t|]; simpl; [|auto].
    split.
    + exact (wf_filter_discounts (mkDb (discountSets db) (discounts db) (next_id db))
               (fun d => negb (in_set k d)) Hwf).
    + intros d Hd. apply filter_In in Hd as [Hd _]. auto.
  - unfold delete_single_discount. destruct (find _ (discounts db)) as [x|]; simpl; [|auto].
    split.
    + exact (wf_filter_discounts db (fun d => negb (Nat.eqb (id d) k)) Hwf).
    + intros d Hd. apply filter_In in Hd as [Hd _]. auto.
Qed.

(** X10: Deleting a set frees its codes: codes that no row outside the set uses
    in the shop can be submitted again, and the submission succeeds when
    the template exists. *)
Theorem delete_set_frees_codes (gw : Gateway) (s : nat) (db : Db) (ds : DiscountSet)
    (sh m n : string) (codes : list string) :
  find_set s db = Some ds ->
  nodup_str codes = true ->
  validateTemplate gw (format_id m) = VF_ok (Some true) ->
  forallb (fun c => negb (existsb (fun d => negb (in_set s d) &&
                                            (String.eqb (shop d) sh && String.eqb (code d) c))
                                  (discounts db))) codes = true ->
  snd (create_discounts gw sh m n codes (fst (fst (delete_discount_set s db)))) =
  R_created (next_id db) (length codes).
Proof.
  intros Hf Hnd Hv Hfree. rewrite (delete_set_db s db ds Hf).
  unfold create_discounts. simpl. rewrite Hv. unfold createMany. simpl.
  rewrite Hnd. simpl.
  replace (forallb _ codes) with true; [reflexivity|].
  symmetry. apply forallb_forall. intros c Hc. rewrite existsb_filter.
  exact (proj1 (forallb_forall _ _) Hfree c Hc).
Qed.

(** ** The loader and the page *)

Lemma count_status_app (st : DiscountStatus) (l1 l2 : list Discount) :
  count_status st (l1 ++ l2) = count_status st l1 + count_status st l2.
Proof. unfold count_status. rewrite filter_app, length_app. reflexivity. Qed.

Lemma count_status_rev (st : DiscountStatus) (l : list Discount) :
  count_status st (rev l) = count_status st l.
Proof.
  induction l as [|x xs IH]; simpl; [reflexivity|].
  rewrite count_status_app, IH. unfold count_status. simpl.
  destruct (status_eqb (status x) st); simpl; lia.
Qed.

Lemma count_status_in_set (st : DiscountStatus) (sid : nat) (l : list Discount) :
  count_status st (filter (in_set sid) l) = length (filter (in_set_with sid st) l).
Proof.
  unfold count_status. rewrite filter_filter_and. f_equal. apply filter_ext. intro d.
  unfold in_set, in_set_with. destruct (discountSetId d); reflexivity.
Qed.

Lemma count_status_total (l : list Discount) :
  count_status PENDING l + count_status FAILED l + count_status CREATED l = length l.
Proof.
  induction l as [|x xs IH]; [reflexivity|].
  unfold count_status in *. simpl. destruct (status x); simpl; lia.
Qed.

Lemma find_none_intro {A} (f : A -> bool) (l : list A) :
  (forall x, In x l -> f x = false) -> find f l = None.
Proof.
  induction l as [|x xs IH]; intro H; simpl; [reflexivity|].
  rewrite (H x (or_introl eq_refl)). apply IH. intros y Hy. apply H. right; exact Hy.
Qed.

Lemma in_loader (sh : string) (db : Db) (t : DiscountSet) (rows : list Discount) :
  In (t, rows) (loader sh db) <->
  In t (discountSets db) /\ set_shop t = sh /\ rows = rev (filter (in_set (set_id t)) (discounts db)).
Proof.
  unfold loader. rewrite in_map_iff. split.
  - intros [t' [E Ht']]. injection E as <- <-. apply in_rev, filter_In in Ht' as [Ht' Hs].
    apply String.eqb_eq in Hs. auto.
  - intros (Ht & Hs & ->). exists t. split; [reflexivity|].
    rewrite <- in_rev. apply filter_In. split; [exact Ht | apply String.eqb_eq, Hs].
Qed.

(** X11: The loader lists exactly the shop's sets, each with exactly its own
    rows; on each set card the pending count is the number of the set's
    [PENDING] rows in the store, and the pending, failed and created counts
    add up to the number of rows shown. *)
Theorem loader_shop_sets (sh : string) (db : Db) :
  (forall t, In t (map fst (loader sh db)) <-> In t (discountSets db) /\ set_shop t = sh) /\
  (forall t rows, In (t, rows) (loader sh db) ->
     (forall d, In d rows <-> In d (discounts db) /\ discountSetId d = Some (set_id t)) /\
     let '(pendingCount, failedCount, createdCount) := card_counts (t, rows) in
     pendingCount = count_pending (set_id t) db /\
     pendingCount + failedCount + createdCount = length rows).
Proof.
  split.
  - intro t. rewrite in_map_iff. split.
    + intros [[t' rows] [E H]]. simpl in E. subst t'. apply in_loader in H. tauto.
    + intros [Ht Hs]. exists (t, rev (filter (in_set (set_id t)) (discounts db))).
      split; [reflexivity|]. apply in_loader. auto.
  - intros t rows H. apply in_loader in H as (_ & _ & ->). split.
    + intro d. rewrite <- in_rev, filter_In, in_set_spec. reflexivity.
    + unfold card_counts. simpl. split.
      * rewrite count_status_rev, count_status_in_set. reflexivity.
      * apply count_status_total.
Qed.

(** X12: Resuming a set of the shop from the page starts processing it exactly
    when the store holds [PENDING] rows of that set, with that many rows to
    process and none processed yet; resuming an id the page does not show
    does nothing. *)
Theorem resume_from_loader (sh : string) (db : Db) (c : Client) :
  (forall t, In t (discountSets db) -> set_shop t = sh ->
     handleResumeProcessing (loader sh db) (set_id t) c =
     if Nat.ltb 0 (count_pending (set_id t) db)
     then mkClient (Some (set_id t)) 0 (count_pending (set_id t) db) (processData c)
     else c) /\
  (forall s, (forall t, In t (discountSets db) -> set_shop t = sh -> set_id t <> s) ->
     handleResumeProcessing (loader sh db) s c = c).
Proof.
  split.
  - intros t Ht Hs. unfold handleResumeProcessing.
    destruct (find (fun v => Nat.eqb (set_id (fst v)) (set_id t)) (loader sh db)) as [[t' rows]|] eqn:E.
    + apply find_some in E as [Hin Et]. simpl in Et. apply Nat.eqb_eq in Et.
      apply in_loader in Hin as (_ & _ & ->). simpl.
      rewrite count_status_rev, count_status_in_set, Et. reflexivity.
    + exfalso. assert (Hin : In (t, rev (filter (in_set (set_id t)) (discounts db))) (loader sh db))
        by (apply in_loader; auto).
      pose proof (find_none _ _ E _ Hin) as F. simpl in F. rewrite Nat.eqb_refl in F. discriminate.
  - intros s Hs. unfold handleResumeProcessing.
    rewrite find_none_intro; [reflexivity|].
    intros [t rows] Hin. apply in_loader in Hin as (Ht & Hsh & _). simpl.
    apply Nat.eqb_neq. exact (Hs t Ht Hsh).
Qed.

(** ** The polling loop *)

Lemma rounds_next (n : nat) :
  5 < n -> Nat.max 1 ((n + 4) / 5) = S (Nat.max 1 ((n - 5 + 4) / 5)).
Proof.
  intro H. replace (n + 4) with ((n - 5 + 4) + 1 * 5) by lia. rewrite Nat.div_add by lia.
  assert (1 <= (n - 5 + 4) / 5) by (apply Nat.div_le_lower_bound; lia). lia.
Qed.

Lemma rounds_last (n : nat) : n - Nat.min 5 n = 0 -> Nat.max 1 ((n + 4) / 5) = 1.
Proof.
  intro H. assert ((n + 4) / 5 < 2) by (apply Nat.Div0.div_lt_upper_bound; lia). lia.
Qed.

Lemma poll_complete (fuel : nat) (gws : nat -> Gateway) (k : nat) (db : Db) (c : Client) :
  is_complete (processData c) = true ->
  let '(db', c', m) := poll (S fuel) gws k db c in db' = db /\ m = 0 /\ processingSetId c' = None.
Proof.
  intro H. cbn [poll]. unfold poll_effect.
  destruct (processingSetId c) eqn:E; [rewrite H|]; simpl; auto.
Qed.

(** X13: With a template available at every request, polling a set with [n]
    [PENDING] rows stops by itself after exactly max(1, ceil(n/5))
    [process_pending] requests, and no row of the set is left [PENDING]. *)
Theorem polling_finishes (gws : nat -> Gateway) (k s : nat) (db : Db) (ds : DiscountSet)
    (c : Client) (fuel : nat) :
  wf db = true -> find_set s db = Some ds ->
  (forall j, is_template (fetchTemplate (gws j) (set_masterDiscountId ds)) = true) ->
  processingSetId c = Some s -> is_complete (processData c) = false ->
  Nat.max 1 ((count_pending s db + 4) / 5) < fuel ->
  let '(db', c', m) := poll fuel gws k db c in
  m = Nat.max 1 ((count_pending s db + 4) / 5) /\ processingSetId c' = None /\
  count_pending s db' = 0.
Proof.
  intros Hwf Hf Ht. revert k db c Hwf Hf.
  induction fuel as [|f IH]; intros k db c Hwf Hf Hc Hnc Hfuel; [lia|].
  cbn [poll]. unfold poll_effect at 1. rewrite Hc, Hnc.
  pose proof (batch_step (gws k) s db ds Hwf Hf (Ht k)) as B.
  destruct (process_pending (gws k) s db) as [[db1 log] r] eqn:Ep.
  destruct B as (Hwf1 & Hf1 & Hcnt & Hr). unfold BATCH_SIZE in Hcnt, Hr.
  destruct (Nat.eqb (count_pending s db1) 0) eqn:Ez.
  - apply Nat.eqb_eq in Ez. subst r.
    destruct f as [|f']; [pose proof (rounds_last (count_pending s db)); lia|].
    cbn [poll]. unfold poll_effect. simpl.
    split; [symmetry; apply rounds_last; lia | split; [reflexivity | exact Ez]].
  - apply Nat.eqb_neq in Ez. subst r.
    assert (Hgt : 5 < count_pending s db) by lia.
    assert (Hc1 : count_pending s db1 = count_pending s db - 5) by lia.
    pose proof (rounds_next (count_pending s db) Hgt) as Hround.
    match goal with
    | |- context [poll f gws (S k) db1 ?c2] =>
        specialize (IH (S k) db1 c2 Hwf1 Hf1 eq_refl);
        destruct (poll f gws (S k) db1 c2) as [[db2 c3] m] eqn:Epl
    end.
    destruct IH as (Hm & Hc3 & Hz).
    + reflexivity.
    + rewrite Hc1. rewrite Hround in Hfuel. lia.
    + split; [rewrite Hm, Hc1, Hround; reflexivity | split; assumption].
Qed.

(** X14: When the template query fails at every request and the set still has
    [PENDING] rows, the page never stops polling: every round sends one
    more [process_pending] request, the set stays in processing and the
    store is never changed. *)
Theorem polling_never_stops_on_batch_error (gws : nat -> Gateway) (k s : nat) (db : Db)
    (ds : DiscountSet) (c : Client) (fuel : nat) :
  find_set s db = Some ds -> claim s db <> [] ->
  (forall j, template_unavailable (fetchTemplate (gws j) (set_masterDiscountId ds)) = true) ->
  processingSetId c = Some s -> is_complete (processData c) = false ->
  let '(db', c', m) := poll fuel gws k db c in
  db' = db /\ m = fuel /\ processingSetId c' = Some s.
Proof.
  intros Hf Hcl Ht. revert k c.
  induction fuel as [|f IH]; intros k c Hc Hnc; [simpl; auto|].
  cbn [poll]. unfold poll_effect at 1. rewrite Hc, Hnc.
  assert (Hp : exists e, process_pending (gws k) s db = (db, [], R_error e)).
  { unfold process_pending. rewrite Hf. destruct (claim s db) as [|x xs]; [contradiction|].
    specialize (Ht k). destruct (fetchTemplate (gws k) (set_masterDiscountId ds)) as [m|[[md|]|]];
      try discriminate; eexists; reflexivity. }
  destruct Hp as [e Hp]. rewrite Hp.
  match goal with
  | |- context [poll f gws (S k) db ?c2] =>
      specialize (IH (S k) c2 eq_refl eq_refl);
      destruct (poll f gws (S k) db c2) as [[db2 c3] m] eqn:Epl
  end.
  destruct IH as (-> & -> & Hc3). auto.
Qed.

(** X15: A finished run leaves its last response, marked complete, in the
    processing fetcher: a later start of processing, after a submission or
    a retry or from the resume button, stops at once without sending any
    [process_pending] request and without touching the store. *)
Theorem stale_complete_response_stops_polling (gws : nat -> Gateway) (k : nat) (db : Db)
    (c : Client) (fuel : nat) :
  is_complete (processData c) = true ->
  (forall actionData,
     let '(db', c', m) := poll (S fuel) gws k db (startProcessing actionData c) in
     db' = db /\ m = 0 /\ processingSetId c' = None) /\
  (forall views s,
     let '(db', c', m) := poll (S fuel) gws k db (handleResumeProcessing views s c) in
     db' = db /\ m = 0 /\ processingSetId c' = None).
Proof.
  intro H. split.
  - intro a. apply poll_complete.
    destruct a as [e|sid t|b p r|sid [|]]; exact H.
  - intros views s. apply poll_complete. unfold handleResumeProcessing.
    destruct (Nat.ltb 0 _); exact H.
Qed.

(** ** Witnesses of the further theorems *)

Lemma parsed_codes_all_queued_witness :
  handleGenerateDiscounts "42" "Winter" (parseCodes csv_sample) =
    Some ("42", "Winter", ["SAVE10"; "HOLIDAY20"; "save10"; "CYBER30"]) /\
  validateTemplate g12 (format_id "42") = VF_ok (Some true) /\
  forallb (fun c => negb (existsb (fun d => String.eqb (shop d) "shop" && String.eqb (code d) c)
                                  (discounts db_mixed))) ["SAVE10"; "HOLIDAY20"; "save10"; "CYBER30"]
    = true /\
  exists rows,
    create_discounts g12 "shop" "42" "Winter" ["SAVE10"; "HOLIDAY20"; "save10"; "CYBER30"] db_mixed =
      (mkDb (discountSets db_mixed ++ [mkDiscountSet (next_id db_mixed) "Winter" "shop" (format_id "42")])
            (discounts db_mixed ++ rows) (S (next_id db_mixed) + 4),
       R_created (next_id db_mixed) 4) /\
    map code rows = ["SAVE10"; "HOLIDAY20"; "save10"; "CYBER30"] /\
    forall r, In r rows ->
      status r = PENDING /\ discountSetId r = Some (next_id db_mixed) /\ shop r = "shop".
Proof.
  split; [vm_compute; reflexivity|]. split; [vm_compute; reflexivity|].
  split; [vm_compute; reflexivity|].
  apply (parsed_codes_all_queued g12 "shop" "42" "Winter" csv_sample
           ["SAVE10"; "HOLIDAY20"; "save10"; "CYBER30"] db_mixed);
    vm_compute; reflexivity.
Defined.

Lemma delete_discount_set_removes_set_witness :
  find_set 0 db_mixed = Some setA /\
  let '(db', sent, r) := delete_discount_set 0 db_mixed in
  r = DelSuccess "Discount set deleted successfully" /\
  (forall x, In x sent <->
     exists d, In d (discounts db_mixed) /\ discountSetId d = Some 0 /\ status d = CREATED /\
               shopifyId d = Some x /\ x <> "") /\
  (forall d, In d (discounts db') <-> In d (discounts db_mixed) /\ discountSetId d <> Some 0) /\
  (forall t, In t (discountSets db') <-> In t (discountSets db_mixed) /\ set_id t <> 0) /\
  next_id db' = next_id db_mixed /\
  (forall gw, process_pending gw 0 db' = (db', [], R_error "Discount set not found")).
Proof.
  split; [vm_compute; reflexivity|].
  apply (delete_discount_set_removes_set 0 db_mixed setA). vm_compute; reflexivity.
Defined.

Lemma delete_missing_records_witness :
  find_set 7 db_mixed = None /\
  existsb (fun d => Nat.eqb (id d) 9) (discounts db_mixed) = false /\
  fst (fst (delete_discount_set 7 db_mixed)) = db_mixed /\
  snd (delete_discount_set 7 db_mixed) = DelError "Record to delete does not exist." /\
  delete_single_discount 9 db_mixed = (db_mixed, [], DelError "Record to delete does not exist.").
Proof.
  split; [vm_compute; reflexivity|]. split; [vm_compute; reflexivity|].
  apply (delete_missing_records 7 9 db_mixed); vm_compute; reflexivity.
Defined.

Lemma delete_single_discount_exact_witness :
  wf db_mixed = true /\ In rowA1 (discounts db_mixed) /\
  let '(db', sent, r) := delete_single_discount (id rowA1) db_mixed in
  r = DelSuccess "Discount deleted successfully" /\
  (forall x, In x (discounts db') <-> In x (discounts db_mixed) /\ x <> rowA1) /\
  discountSets db' = discountSets db_mixed /\ next_id db' = next_id db_mixed /\
  (forall x, In x sent <-> status rowA1 = CREATED /\ shopifyId rowA1 = Some x /\ x <> "") /\
  length sent <= 1.
Proof.
  split; [vm_compute; reflexivity|]. split; [simpl; left; reflexivity|].
  apply (delete_single_discount_exact db_mixed rowA1).
  - vm_compute; reflexivity.
  - simpl; left; reflexivity.
Defined.

Lemma deletes_keep_invariants_witness :
  wf db_mixed = true /\ store_inv db_mixed /\
  (forall s, wf (fst (fst (delete_discount_set s db_mixed))) = true /\
             store_inv (fst (fst (delete_discount_set s db_mixed)))) /\
  (forall i, wf (fst (fst (delete_single_discount i db_mixed))) = true /\
             store_inv (fst (fst (delete_single_discount i db_mixed)))).
Proof.
  assert (Hw : wf db_mixed = true) by (vm_compute; reflexivity).
  assert (Hi : store_inv db_mixed) by (apply store_inv_of_b; vm_compute; reflexivity).
  split; [exact Hw|]. split; [exact Hi|].
  apply (deletes_keep_invariants db_mixed Hw Hi).
Defined.

Lemma delete_set_frees_codes_witness :
  find_set 0 db_mixed = Some setA /\
  nodup_str ["A1"; "A2"] = true /\
  validateTemplate g12 (format_id "42") = VF_ok (Some true) /\
  forallb (fun c => negb (existsb (fun d => negb (in_set 0 d) &&
                                            (String.eqb (shop d) "shop" && String.eqb (code d) c))
                                  (discounts db_mixed))) ["A1"; "A2"] = true /\
  snd (create_discounts g12 "shop" "42" "Again" ["A1"; "A2"] db_mixed) <> R_created 6 2 /\
  snd (create_discounts g12 "shop" "42" "Again" ["A1"; "A2"]
         (fst (fst (delete_discount_set 0 db_mixed)))) = R_created (next_id db_mixed) 2.
Proof.
  split; [vm_compute; reflexivity|]. split; [vm_compute; reflexivity|].
  split; [vm_compute; reflexivity|]. split; [vm_compute; reflexivity|].
  split; [vm_compute; discriminate|].
  apply (delete_set_frees_codes g12 0 db_mixed setA "shop" "42" "Again" ["A1"; "A2"]);
    vm_compute; reflexivity.
Defined.

Lemma loader_shop_sets_witness :
  map (fun v => (set_id (fst v), map id (snd v))) (loader "shop" db_mixed) = [(1, [5]); (0, [4; 3; 2])] /\
  In (setA, rev (filter (in_set 0) (discounts db_mixed))) (loader "shop" db_mixed) /\
  (forall d, In d (rev (filter (in_set 0) (discounts db_mixed))) <->
             In d (discounts db_mixed) /\ discountSetId d = Some (set_id setA)) /\
  (let '(pendingCount, failedCount, createdCount) :=
     card_counts (setA, rev (filter (in_set 0) (discounts db_mixed))) in
   pendingCount = count_pending (set_id setA) db_mixed /\
   pendingCount + failedCount + createdCount = length (rev (filter (in_set 0) (discounts db_mixed)))).
Proof.
  split; [vm_compute; reflexivity|].
  assert (Hin : In (setA, rev (filter (in_set 0) (discounts db_mixed))) (loader "shop" db_mixed))
    by (vm_compute; right; left; reflexivity).
  split; [exact Hin|].
  apply (proj2 (loader_shop_sets "shop" db_mixed) setA _ Hin).
Defined.

Lemma resume_from_loader_witness :
  In setA (discountSets db_mixed) /\ set_shop setA = "shop" /\
  handleResumeProcessing (loader "shop" db_mixed) (set_id setA) (mkClient None 0 0 None) =
    mkClient (Some 0) 0 1 None /\
  handleResumeProcessing (loader "other.myshopify.com" db_mixed) 0 (mkClient None 0 0 None) =
    mkClient None 0 0 None.
Proof.
  assert (Hin : In setA (discountSets db_mixed)) by (simpl; left; reflexivity).
  split; [exact Hin|]. split; [reflexivity|].
  destruct (resume_from_loader "shop" db_mixed (mkClient None 0 0 None)) as [H1 _].
  rewrite (H1 setA Hin eq_refl). split; [vm_compute; reflexivity|].
  destruct (resume_from_loader "other.myshopify.com" db_mixed (mkClient None 0 0 None)) as [_ H2].
  apply H2. intros t Ht Hs. simpl in Ht. destruct Ht as [<-|[<-|[]]]; simpl in Hs; discriminate.
Defined.

Lemma polling_finishes_witness :
  wf db12 = true /\ find_set 0 db12 = Some set12 /\
  (forall j, is_template (fetchTemplate ((fun _ : nat => g12) j) (set_masterDiscountId set12)) = true) /\
  processingSetId (startProcessing (R_created 0 12) (mkClient None 0 0 None)) = Some 0 /\
  is_complete (processData (startProcessing (R_created 0 12) (mkClient None 0 0 None))) = false /\
  Nat.max 1 ((count_pending 0 db12 + 4) / 5) < 4 /\
  let '(db', c', m) := poll 4 (fun _ : nat => g12) 0 db12 (startProcessing (R_created 0 12) (mkClient None 0 0 None)) in
  m = Nat.max 1 ((count_pending 0 db12 + 4) / 5) /\ processingSetId c' = None /\
  count_pending 0 db' = 0.
Proof.
  split; [vm_compute; reflexivity|]. split; [vm_compute; reflexivity|].
  split; [intro j; vm_compute; reflexivity|]. split; [reflexivity|]. split; [reflexivity|].
  split; [vm_compute; lia|].
  apply (polling_finishes (fun _ : nat => g12) 0 0 db12 set12);
    first [ reflexivity | intro j; vm_compute; reflexivity | vm_compute; lia ].
Defined.

Lemma polling_never_stops_on_batch_error_witness :
  find_set 0 db12 = Some set12 /\ claim 0 db12 <> [] /\
  (forall j, template_unavailable (fetchTemplate ((fun _ : nat => gw_gone) j) (set_masterDiscountId set12))
             = true) /\
  let '(db', c', m) := poll 6 (fun _ : nat => gw_gone) 0 db12 (mkClient (Some 0) 0 12 None) in
  db' = db12 /\ m = 6 /\ processingSetId c' = Some 0.
Proof.
  split; [vm_compute; reflexivity|]. split; [vm_compute; discriminate|].
  split; [intro j; vm_compute; reflexivity|].
  apply (polling_never_stops_on_batch_error (fun _ : nat => gw_gone) 0 0 db12 set12);
    first [ reflexivity | vm_compute; discriminate | intro j; vm_compute; reflexivity ].
Defined.

Lemma stale_complete_response_stops_polling_witness :
  is_complete (processData (mkClient None 10 12 (Some (R_processed true 2 0)))) = true /\
  snd (retry_failed 0 db_mixed) = R_retry 0 true /\
  0 < count_pending 0 (fst (retry_failed 0 db_mixed)) /\
  let '(db', c', m) := poll 3 (fun _ : nat => g12) 0 (fst (retry_failed 0 db_mixed))
                         (startProcessing (snd (retry_failed 0 db_mixed))
                                          (mkClient None 10 12 (Some (R_processed true 2 0)))) in
  db' = fst (retry_failed 0 db_mixed) /\ m = 0 /\ processingSetId c' = None.
Proof.
  split; [reflexivity|]. split; [vm_compute; reflexivity|]. split; [vm_compute; lia|].
  apply (proj1 (stale_complete_response_stops_polling (fun _ : nat => g12) 0 (fst (retry_failed 0 db_mixed))
                  (mkClient None 10 12 (Some (R_processed true 2 0))) 2 eq_refl)).
Defined.
